(** * json_to_csv: race results, JSON to TrainingPeaks Virtual CSV

    A shallow embedding of [scripts/json_to_csv.py] and the properties of
    its conversion routine and command-line entry point.

    Conventions of the embedding.
    - A Python [str] is a Rocq [string] holding the UTF-8 bytes of the text
      (the text is taken to be encodable, i.e. without lone surrogates), so
      encoding to UTF-8 is the identity on the payload.
    - A parsed JSON document is a [value]; a JSON object is an association
      list in insertion order, looked up by its first matching key.
    - A Python [float] is represented by its [repr] text (the shortest
      decimal that reads back to the same double), e.g. ["32417.966"].
    - In the [repr] of a string inside a list or an object, characters
      outside ASCII are taken to be printable and are copied; Python
      escapes those that are not.
    - Effects are a log of [event]s next to an [outcome]: every Python
      exception the script can raise ends the computation with [Raise].
    - The input side of the file system is what [json.load] would find
      under each path.  Creating the output folder is taken to succeed.
      Opening the output file succeeds for the name built from the
      defaults; a name that carries text of the document is refused when
      it holds a NUL, and otherwise the file system decides ([opens]).
      The properties that speak of the content of the output file assume
      that it can be opened ([open_error] gives [None]). *)

From Stdlib Require Import List String Ascii ZArith Lia Bool.
From Stdlib Require Import DecimalString Decimal.
Import ListNotations.

Local Open Scope list_scope.
Local Open Scope string_scope.

(** ** Characters and small string utilities *)

Definition LF : ascii := ascii_of_nat 10.
Definition CR : ascii := ascii_of_nat 13.
Definition TAB : ascii := ascii_of_nat 9.
Definition DQUOTE : ascii := ascii_of_nat 34.
Definition SQUOTE : ascii := ascii_of_nat 39.
Definition BACKSLASH : ascii := ascii_of_nat 92.
Definition SLASH : ascii := ascii_of_nat 47.
Definition NUL : ascii := ascii_of_nat 0.

Definition str1 (c : ascii) : string := String c EmptyString.

Fixpoint string_mem (c : ascii) (s : string) : bool :=
  match s with
  | EmptyString => false
  | String a s' => Ascii.eqb c a || string_mem c s'
  end.

Fixpoint string_forallb (p : ascii -> bool) (s : string) : bool :=
  match s with
  | EmptyString => true
  | String a s' => p a && string_forallb p s'
  end.

Fixpoint string_existsb (p : ascii -> bool) (s : string) : bool :=
  match s with
  | EmptyString => false
  | String a s' => p a || string_existsb p s'
  end.

(** [needle in haystack] for two Python strings. *)
Fixpoint str_contains (needle haystack : string) : bool :=
  String.prefix needle haystack
  || match haystack with
     | EmptyString => false
     | String _ rest => str_contains needle rest
     end.

(** [s.replace(c, by)] for a one-character pattern. *)
Fixpoint str_replace_char (c : ascii) (by_ : string) (s : string) : string :=
  match s with
  | EmptyString => EmptyString
  | String a s' =>
      (if Ascii.eqb a c then by_ else str1 a) ++ str_replace_char c by_ s'
  end.


(** ** Parsed JSON documents *)

#[local] Set Warnings "-register-all".

Inductive value : Type :=
| VNone                                   (* null *)
| VBool (b : bool)                        (* true / false *)
| VInt (z : Z)                            (* integer literal *)
| VFloat (repr : string)                  (* real literal, by its repr *)
| VStr (s : string)
| VList (items : list value)
| VDict (entries : list (string * value)).

Definition dict := list (string * value).

(** [str(int)]. *)
Definition str_of_Z (z : Z) : string := NilZero.string_of_int (Z.to_int z).

Definition hex_digit (n : nat) : ascii :=
  match n with
  | 0 => "0" | 1 => "1" | 2 => "2" | 3 => "3" | 4 => "4" | 5 => "5"
  | 6 => "6" | 7 => "7" | 8 => "8" | 9 => "9" | 10 => "a" | 11 => "b"
  | 12 => "c" | 13 => "d" | 14 => "e" | _ => "f"
  end%char.

(** One character of [repr(str)] with [q] the chosen quote.  Bytes of
    multi-byte UTF-8 sequences are copied (their characters are taken to be
    printable). *)
Definition repr_char (q : ascii) (c : ascii) : string :=
  let n := nat_of_ascii c in
  if Ascii.eqb c q || Ascii.eqb c BACKSLASH then String BACKSLASH (str1 c)
  else if Ascii.eqb c TAB then String BACKSLASH "t"
  else if Ascii.eqb c LF then String BACKSLASH "n"
  else if Ascii.eqb c CR then String BACKSLASH "r"
  else if Nat.ltb n 32 || Nat.eqb n 127
       then String BACKSLASH
              (String "x" (String (hex_digit (n / 16)) (str1 (hex_digit (n mod 16)))))
  else str1 c.

Fixpoint repr_chars (q : ascii) (s : string) : string :=
  match s with
  | EmptyString => EmptyString
  | String c s' => repr_char q c ++ repr_chars q s'
  end.

(** [repr(s)] for a string: single quotes unless the text has a single
    quote and no double quote. *)
Definition repr_str (s : string) : string :=
  let q := if string_mem SQUOTE s && negb (string_mem DQUOTE s)
           then DQUOTE else SQUOTE in
  String q (repr_chars q s ++ str1 q).

Fixpoint py_repr (v : value) : string :=
  match v with
  | VNone => "None"
  | VBool true => "True"
  | VBool false => "False"
  | VInt z => str_of_Z z
  | VFloat r => r
  | VStr s => repr_str s
  | VList items => "[" ++ String.concat ", " (map py_repr items) ++ "]"
  | VDict entries =>
      "{" ++ String.concat ", "
               (map (fun kv => repr_str (fst kv) ++ ": " ++ py_repr (snd kv))
                    entries) ++ "}"
  end.

(** [str(v)], also what an f-string writes for [{v}]. *)
Definition py_str (v : value) : string :=
  match v with
  | VStr s => s
  | _ => py_repr v
  end.

(** ** Python operations used by the script *)

Inductive exn : Type :=
| TypeError
| AttributeError
| KeyError
| ValueError            (* includes json.JSONDecodeError *)
| OSError               (* FileNotFoundError, IsADirectoryError *)
| RecursionError        (* a RuntimeError *)
| SystemExit (code : Z).

Inductive outcome (A : Type) : Type :=
| Ok (a : A)
| Raise (e : exn).
Arguments Ok {A} a.
Arguments Raise {A} e.

(** Sequencing of operations that may raise. *)
Definition obind {A B : Type} (m : outcome A) (k : A -> outcome B) : outcome B :=
  match m with
  | Ok a => k a
  | Raise e => Raise e
  end.

Declare Scope outcome_scope.
Delimit Scope outcome_scope with outcome.
Notation "x <- c ;; k" := (obind c (fun x => k))
  (at level 61, c at next level, right associativity) : outcome_scope.

Fixpoint dict_lookup (d : dict) (key : string) : option value :=
  match d with
  | [] => None
  | (k, v) :: d' => if String.eqb key k then Some v else dict_lookup d' key
  end.

(** [key in d] for a dict. *)
Definition dict_has (d : dict) (key : string) : bool :=
  match dict_lookup d key with Some _ => true | None => false end.

(** [d.get(key, default)] for a dict. *)
Definition dict_get (d : dict) (key : string) (default : value) : value :=
  match dict_lookup d key with Some v => v | None => default end.

(** ['...' == v]: a string equals only an equal string. *)
Definition py_eq_str (s : string) (v : value) : bool :=
  match v with
  | VStr t => String.eqb s t
  | _ => false
  end.

(** [key in data], where [key] is a string: key membership for a dict,
    element equality for a list, substring test for a string; other values
    are not containers. *)
Definition py_contains (key : string) (data : value) : outcome bool :=
  match data with
  | VDict d => Ok (dict_has d key)
  | VList items => Ok (existsb (py_eq_str key) items)
  | VStr s => Ok (str_contains key s)
  | _ => Raise TypeError
  end.

(** [data[key]] with a string subscript. *)
Definition py_getitem (data : value) (key : string) : outcome value :=
  match data with
  | VDict d =>
      match dict_lookup d key with
      | Some v => Ok v
      | None => Raise KeyError
      end
  | _ => Raise TypeError
  end.

(** [data.get(key, default)]: only dicts have the method. *)
Definition py_get (data : value) (key : string) (default : value)
  : outcome value :=
  match data with
  | VDict d => Ok (dict_get d key default)
  | _ => Raise AttributeError
  end.

Definition isinstance_list (data : value) : bool :=
  match data with VList _ => true | _ => false end.

(** Truth value of an object, as tested by [not results]. *)
Definition py_truthy (v : value) : bool :=
  match v with
  | VNone => false
  | VBool b => b
  | VInt z => negb (Z.eqb z 0)
  | VFloat r => negb (String.eqb r "0.0" || String.eqb r "-0.0")
  | VStr s => negb (String.eqb s "")
  | VList items => match items with [] => false | _ => true end
  | VDict entries => match entries with [] => false | _ => true end
  end.

(** A byte that continues a multi-byte UTF-8 sequence (10xxxxxx). *)
Definition utf8_continuation (c : ascii) : bool :=
  let n := nat_of_ascii c in Nat.leb 128 n && Nat.ltb n 192.

(** The characters of a string, each as a one-character string. *)
Fixpoint str_chars_aux (cur : string) (s : string) : list string :=
  match s with
  | EmptyString => [cur]
  | String c s' =>
      if utf8_continuation c then str_chars_aux (cur ++ str1 c) s'
      else cur :: str_chars_aux (str1 c) s'
  end.

Definition str_chars (s : string) : list string :=
  match s with
  | EmptyString => []
  | String c s' => str_chars_aux (str1 c) s'
  end.

(** The items a [for] loop draws from an object: elements of a list, keys
    of a dict, characters of a string. *)
Definition py_iter (v : value) : outcome (list value) :=
  match v with
  | VList items => Ok items
  | VDict entries => Ok (map (fun kv => VStr (fst kv)) entries)
  | VStr s => Ok (map VStr (str_chars s))
  | _ => Raise TypeError
  end.

(** [len(v)]. *)
Definition py_len (v : value) : outcome nat :=
  match v with
  | VList items => Ok (List.length items)
  | VDict entries => Ok (List.length entries)
  | VStr s => Ok (List.length (str_chars s))
  | _ => Raise TypeError
  end.

(** ** The environment and the effect log *)

Record datetime : Type := {
  year : Z; month : Z; day : Z;
  hour : Z; minute : Z; second : Z
}.

(** What is stored under a path of the file system, seen through
    [json.load]: a document, a document nested deeper than the parser's
    recursion limit, text that does not parse, or a directory. *)
Inductive file : Type :=
| JsonFile (doc : value)
| DeepJson
| BadFile
| Directory.

(** [Path(folder) / name], where [name] is relative text that may itself
    hold several components. *)
Inductive pypath : Type := PathJoin (folder name : string).

(** The text after the last separator. *)
Fixpoint last_component (s : string) : string :=
  match s with
  | EmptyString => EmptyString
  | String c s' => if string_mem SLASH s then last_component s' else s
  end.

(** [p.name], the final component, for a joined name that does not end in
    a separator. *)
Definition path_name (p : pypath) : string :=
  match p with PathJoin _ n => last_component n end.

Definition path_eqb (p q : pypath) : bool :=
  match p, q with
  | PathJoin f n, PathJoin f' n' => String.eqb f f' && String.eqb n n'
  end.

Record env : Type := {
  fs : list (string * file);
  now : datetime;            (* what datetime.now() reads *)
  linesep : string;          (* os.linesep *)
  opens : pypath -> bool     (* whether the file system lets a path be
                                opened for writing once the folder of
                                line 55 is made *)
}.

Fixpoint fs_lookup (files : list (string * file)) (p : string) : option file :=
  match files with
  | [] => None
  | (q, f) :: rest => if String.eqb p q then Some f else fs_lookup rest p
  end.

Inductive encoding : Type := Utf8 | Utf8Sig.

(** The mode of [open]: ['w'] empties the file, ['a'] keeps what it holds. *)
Inductive open_mode : Type := ModeW | ModeA.

(** A text file opened for writing: [open(path, mode, newline=..., encoding=...)]. *)
Record textfile : Type := {
  tf_path : pypath;
  tf_mode : open_mode;
  tf_newline : option string;
  tf_encoding : encoding
}.

Inductive event : Type :=
| EExists (p : string)                 (* Path(p).exists() *)
| EOpenRead (p : string)               (* open(p, 'r') *)
| EJsonLoad (p : string)               (* json.load on the open file *)
| EPrint (line : string)               (* print(line) *)
| EPrintConverted (p : pypath)         (* the "Converted JSON to CSV: {p}" line *)
| EMkdir (folder : string)             (* Path(folder).mkdir(parents=True, exist_ok=True) *)
| EOpenWrite (f : textfile)            (* a successful open for writing *)
| EWrite (f : textfile) (text : string)   (* one write of text, after newline translation *)
| EClose (f : textfile).

(** A computation: the events so far and how it ended. *)
Definition io (A : Type) : Type := (list event * outcome A)%type.

Definition io_ret {A : Type} (a : A) : io A := ([], Ok a).

Definition io_bind {A B : Type} (m : io A) (k : A -> io B) : io B :=
  match m with
  | (log, Ok a) => let '(log', r) := k a in ((log ++ log')%list, r)
  | (log, Raise e) => (log, Raise e)
  end.

Declare Scope io_scope.
Delimit Scope io_scope with io.
Notation "x <- c ;; k" := (io_bind c (fun x => k))
  (at level 61, c at next level, right associativity) : io_scope.
Notation "c ;;; k" := (io_bind c (fun _ => k))
  (at level 61, right associativity) : io_scope.

Definition lift {A : Type} (r : outcome A) : io A := ([], r).
Definition tell (ev : event) : io unit := ([ev], Ok tt).
Definition raise {A : Type} (e : exn) : io A := ([], Raise e).
Definition print (line : string) : io unit := tell (EPrint line).

(** [sys.exit(code)]. *)
Definition sys_exit {A : Type} (code : Z) : io A := raise (SystemExit code).

Fixpoint for_each {A : Type} (body : A -> io unit) (items : list A) : io unit :=
  match items with
  | [] => io_ret tt
  | x :: rest => (body x ;;; for_each body rest)%io
  end.

(** ** Text files *)

(** Newline translation on write, by the [newline] argument of [open]:
    [None] turns each line feed into [os.linesep], [''] and ['\n'] write
    text unchanged, any other value replaces each line feed. *)
Definition translate_newlines (sep : string) (newline : option string)
  (text : string) : string :=
  match newline with
  | None => str_replace_char LF sep text
  | Some nl =>
      if String.eqb nl "" || String.eqb nl (str1 LF) then text
      else str_replace_char LF nl text
  end.

(** [f.write(text)]. *)
Definition f_write (e : env) (f : textfile) (text : string) : io unit :=
  tell (EWrite f (translate_newlines (linesep e) (tf_newline f) text)).

(** The byte order mark, EF BB BF. *)
Definition BOM : string :=
  String (ascii_of_nat 239) (String (ascii_of_nat 187) (str1 (ascii_of_nat 191))).

(** Bytes produced by an encoder for the texts written in turn; the
    [utf-8-sig] encoder puts the mark before the first text it encodes. *)
Definition encode_chunks (enc : encoding) (chunks : list string) : string :=
  match enc, chunks with
  | Utf8Sig, _ :: _ => BOM ++ fold_right String.append "" chunks
  | _, _ => fold_right String.append "" chunks
  end.

(** The texts the file at [p] holds, in the order written, or [None] when
    the log never opens it: an open in mode ['w'] empties the file, one in
    mode ['a'] keeps what it holds. *)
Fixpoint chunks_from (p : pypath) (acc : option (encoding * list string))
  (log : list event) : option (encoding * list string) :=
  match log with
  | [] => acc
  | EOpenWrite f :: rest =>
      chunks_from p
        (if path_eqb (tf_path f) p
         then match tf_mode f, acc with
              | ModeA, Some kept => Some kept
              | _, _ => Some (tf_encoding f, [])
              end
         else acc) rest
  | EWrite f text :: rest =>
      chunks_from p
        (if path_eqb (tf_path f) p
         then match acc with
              | Some (enc, cs) => Some (enc, (cs ++ [text])%list)
              | None => None
              end
         else acc) rest
  | _ :: rest => chunks_from p acc rest
  end.

Definition written_chunks (log : list event) (p : pypath) : option (list string) :=
  option_map snd (chunks_from p None log).

(** Content of the file at [p] after the events of [log]. *)
Definition file_content (log : list event) (p : pypath) : option string :=
  option_map (fun ec => encode_chunks (fst ec) (snd ec)) (chunks_from p None log).

(** The data rows of the file at [p]: what follows the banner, the blank
    line and the header. *)
Definition data_rows (log : list event) (p : pypath) : option (list string) :=
  option_map (skipn 3) (written_chunks log p).

(** Files the log creates. *)
Fixpoint created_files (log : list event) : list pypath :=
  match log with
  | [] => []
  | EOpenWrite f :: rest => tf_path f :: created_files rest
  | _ :: rest => created_files rest
  end.

(** ** The csv module: [csv.DictWriter] with the excel dialect *)

Definition COMMA : ascii := ","%char.

(** Characters that force quotes around a field: delimiter, quote
    character and the characters of the line terminator. *)
Definition csv_special (c : ascii) : bool :=
  Ascii.eqb c COMMA || Ascii.eqb c DQUOTE || Ascii.eqb c CR || Ascii.eqb c LF.

(** [PyNumber_Check]: int, float and bool (a subclass of int). *)
Definition py_number_check (v : value) : bool :=
  match v with
  | VInt _ | VFloat _ | VBool _ => true
  | _ => false
  end.

(** Text of a field: [None] is written as the empty string, a string as
    itself, anything else through [str]. *)
Definition field_text (v : value) : string :=
  match v with
  | VNone => ""
  | _ => py_str v
  end.

(** Quote characters inside a quoted field are doubled (doublequote). *)
Definition double_quotes (s : string) : string :=
  str_replace_char DQUOTE (String DQUOTE (str1 DQUOTE)) s.

Definition quote_field (s : string) : string :=
  String DQUOTE (double_quotes s ++ str1 DQUOTE).

(** One field under QUOTE_NONNUMERIC: quoted when the object is not a
    number, or when its text holds a special character. *)
Definition csv_field (v : value) : string :=
  let text := field_text v in
  if negb (py_number_check v) || string_existsb csv_special text
  then quote_field text
  else text.

Definition lineterminator : string := String CR (str1 LF).

(** [writer.writerow(fields)] of the underlying writer: the line it hands
    to the file's [write]. *)
Definition csv_line (fields : list value) : string :=
  String.concat (str1 COMMA) (map csv_field fields) ++ lineterminator.

Definition fieldnames : list string :=
  [ "EventKey"; "Pen"; "Position"; "Name"; "Team"; "Country"; "Time";
    "DeltaTime"; "Distance"; "DeltaDistance"; "Points"; "Gender"; "UID";
    "ARR"; "ARRBand"; "EventRating"; "EventRatingBand"; "AgeBand";
    "NGB"; "NGB ID"; "UCI ID" ].

(** [DictWriter._dict_to_list]: keys outside the field names are refused
    (extrasaction='raise'); missing ones are filled with restval ''. *)
Definition dict_to_list (names : list string) (rowdict : dict)
  : outcome (list value) :=
  if forallb (fun kv => existsb (String.eqb (fst kv)) names) rowdict
  then Ok (map (fun key => dict_get rowdict key (VStr "")) names)
  else Raise ValueError.

(** [DictWriter.writerow(rowdict)]. *)
Definition writerow (e : env) (f : textfile) (names : list string)
  (rowdict : dict) : io unit :=
  (fields <- lift (dict_to_list names rowdict) ;;
   f_write e f (csv_line fields))%io.

(** [DictWriter.writeheader()]: the row that maps each name to itself. *)
Definition writeheader (e : env) (f : textfile) (names : list string) : io unit :=
  writerow e f names (map (fun n => (n, VStr n)) names).

(** ** The clock *)

Definition str_of_nat (n : nat) : string := str_of_Z (Z.of_nat n).

(** A number zero-padded on the left to [width] digits. *)
Definition zero_pad (width : nat) (n : Z) : string :=
  let s := str_of_Z n in
  String.concat "" (repeat "0" (width - String.length s)) ++ s.

(** [t.strftime('%Y%m%d_%H%M%S')]. *)
Definition strftime_Ymd_HMS (t : datetime) : string :=
  zero_pad 4 (year t) ++ zero_pad 2 (month t) ++ zero_pad 2 (day t) ++ "_"
  ++ zero_pad 2 (hour t) ++ zero_pad 2 (minute t) ++ zero_pad 2 (second t).

(** A reading the clock can give. *)
Definition datetime_ok (t : datetime) : bool :=
  ((1000 <=? year t) && (year t <=? 9999)
   && (1 <=? month t) && (month t <=? 12)
   && (1 <=? day t) && (day t <=? 31)
   && (0 <=? hour t) && (hour t <=? 23)
   && (0 <=? minute t) && (minute t <=? 59)
   && (0 <=? second t) && (second t <=? 59))%Z.

(** ** json_to_csv *)

(** [open(json_file_path, 'r')] followed by [json.load(f)] (lines 23-24). *)
Definition read_json (e : env) (json_file_path : string) : io value :=
  (tell (EOpenRead json_file_path) ;;;
  match fs_lookup (fs e) json_file_path with
  | None | Some Directory => raise OSError
  | Some BadFile => tell (EJsonLoad json_file_path) ;;; raise ValueError
  | Some DeepJson => tell (EJsonLoad json_file_path) ;;; raise RecursionError
  | Some (JsonFile doc) => tell (EJsonLoad json_file_path) ;;; io_ret doc
  end)%io.

(** [obj.get(k1, obj.get(k2, default))]: the inner call is the argument of
    the outer one, so it is evaluated first. *)
Definition get2 (obj : value) (k1 k2 : string) (default : value)
  : outcome value :=
  (inner <- py_get obj k2 default ;;
  py_get obj k1 inner)%outcome.

(** [obj.get(k1, obj.get(k2, obj.get(k3, default)))]. *)
Definition get3 (obj : value) (k1 k2 k3 : string) (default : value)
  : outcome value :=
  (inner <- py_get obj k3 default ;;
  get2 obj k1 k2 inner)%outcome.

(** Lines 35-48: the record list, the event key and the pen of a document. *)
Definition extract_results (data : value) : outcome (value * value * value) :=
  (has_results <- py_contains "results" data ;;
  if has_results then
    results <- py_getitem data "results" ;;
    event_key <- get2 data "event_key" "EventKey" (VStr "88000") ;;
    pen <- get2 data "pen" "Pen" (VStr "1") ;;
    Ok (results, event_key, pen)
  else if isinstance_list data then
    Ok (data, VStr "88000", VStr "1")
  else
    event_key <- get2 data "event_key" "EventKey" (VStr "88000") ;;
    pen <- get2 data "pen" "Pen" (VStr "1") ;;
    Ok (VList [data], event_key, pen))%outcome.

(** Line 59: the f-string that names the output file. *)
Definition output_name (event_key pen : value) (timestamp : string) : string :=
  "TPVirtual-Results-Event" ++ py_str event_key ++ "-Pen" ++ py_str pen
  ++ "-" ++ timestamp ++ ".csv".

(** The name of line 59 when event key and pen are the defaults of lines
    39-43: it holds no text of the document. *)
Definition default_output_name (e : env) : string :=
  output_name (VStr "88000") (VStr "1") (strftime_Ymd_HMS (now e)).

(** What [open(p, 'w', ...)] of line 62 raises, if anything.  A name with a
    NUL is refused with ValueError before the file system is asked.  The
    name built from the defaults lies directly in the folder that line 55
    has made, and opening it is taken to succeed, as making the folder is.
    Every other name carries text of the document, which may name
    directories that do not exist or be longer than the file system
    takes: it is opened only if the file system lets it, and refused with
    an OSError (FileNotFoundError for a missing directory) otherwise. *)
Definition open_error (e : env) (p : pypath) : option exn :=
  match p with
  | PathJoin _ name =>
      if string_mem NUL name then Some ValueError
      else if String.eqb name (default_output_name e) || opens e p then None
      else Some OSError
  end.

(** [with open(...) as f: body]: when the open raises the body does not
    run; otherwise the file is closed however the body ends. *)
Definition with_open {A : Type} (e : env) (f : textfile) (body : io A) : io A :=
  match open_error e (tf_path f) with
  | Some ex => raise ex
  | None => let '(log, r) := body in ((EOpenWrite f :: log ++ [EClose f])%list, r)
  end.

(** Entries of the dict display of lines 82-104, in source order. *)
Definition row_items (event_key pen : value) (result : value)
  : list (string * outcome value) :=
  [ ("EventKey", get2 result "EventKey" "event_key" event_key);
    ("Pen", get2 result "Pen" "pen" pen);
    ("Position", get2 result "Position" "position" (VStr ""));
    ("Name", get2 result "Name" "name" (VStr ""));
    ("Team", get2 result "Team" "team" (VStr ""));
    ("Country", get2 result "Country" "country" (VStr ""));
    ("Time", get2 result "Time" "time" (VInt 0));
    ("DeltaTime", get2 result "DeltaTime" "delta_time" (VInt 0));
    ("Distance", get2 result "Distance" "distance" (VFloat "32417.966"));
    ("DeltaDistance", get2 result "DeltaDistance" "delta_distance" (VInt 0));
    ("Points", get2 result "Points" "points" (VInt 0));
    ("Gender", get2 result "Gender" "gender" (VStr ""));
    ("UID", get3 result "UID" "uid" "user_id" (VStr ""));
    ("ARR", get2 result "ARR" "arr" (VStr ""));
    ("ARRBand", get2 result "ARRBand" "arr_band" (VStr ""));
    ("EventRating", get2 result "EventRating" "event_rating" (VStr ""));
    ("EventRatingBand", get2 result "EventRatingBand" "event_rating_band" (VStr ""));
    ("AgeBand", get2 result "AgeBand" "age_band" (VStr ""));
    ("NGB", get2 result "NGB" "ngb" (VStr ""));
    ("NGB ID", get2 result "NGB ID" "ngb_id" (VStr ""));
    ("UCI ID", get2 result "UCI ID" "uci_id" (VStr "")) ].

(** Evaluation of a dict display: the values in turn, stopping at the
    first one that raises. *)
Fixpoint build_dict (items : list (string * outcome value)) : outcome dict :=
  match items with
  | [] => Ok []
  | (k, ov) :: rest =>
      (v <- ov ;;
       d <- build_dict rest ;;
       Ok ((k, v) :: d))%outcome
  end.

(** Lines 82-104: the row of one result. *)
Definition make_row (event_key pen : value) (result : value) : outcome dict :=
  build_dict (row_items event_key pen result).

Definition banner : string := "OVERALL INDIVIDUAL RESULTS:" ++ str1 LF.

(** Lines 62-106: the body of the [with] block. *)
Definition write_csv (e : env) (f : textfile) (results event_key pen : value)
  : io unit :=
  (f_write e f banner ;;;
  f_write e f (str1 LF) ;;;
  writeheader e f fieldnames ;;;
  items <- lift (py_iter results) ;;
  for_each
    (fun result =>
       row <- lift (make_row event_key pen result) ;;
       writerow e f fieldnames row)
    items)%io.

(** The file opened at line 62. *)
Definition output_textfile (output_file : pypath) : textfile :=
  {| tf_path := output_file; tf_mode := ModeW; tf_newline := Some "";
     tf_encoding := Utf8Sig |}.

(** Lines 50-110, from the extracted values on. *)
Definition convert (e : env) (output_folder : string)
  (results event_key pen : value) : io (option pypath) :=
  (if negb (py_truthy results) then
    print "No results found in JSON data" ;;;
    io_ret None
  else
    tell (EMkdir output_folder) ;;;
    let timestamp := strftime_Ymd_HMS (now e) in
    let output_file :=
      PathJoin output_folder (output_name event_key pen timestamp) in
    with_open e (output_textfile output_file)
      (write_csv e (output_textfile output_file) results event_key pen) ;;;
    tell (EPrintConverted output_file) ;;;
    n <- lift (py_len results) ;;
    print ("  - " ++ str_of_nat n ++ " results processed") ;;;
    io_ret (Some output_file))%io.

Definition json_to_csv (e : env) (json_file_path output_folder : string)
  : io (option pypath) :=
  (data <- read_json e json_file_path ;;
  extracted <- lift (extract_results data) ;;
  let '(results, event_key, pen) := extracted in
  convert e output_folder results event_key pen)%io.

(** ** The command line *)

Definition usage : string :=
  "Usage: python json_to_csv.py <json_file> <output_folder>".

(** [Path(p).exists()]. *)
Definition path_exists (e : env) (p : string) : io bool :=
  (tell (EExists p) ;;;
  io_ret (match fs_lookup (fs e) p with Some _ => true | None => false end))%io.

(** [main()], with [argv] the whole of [sys.argv]. *)
Definition main (e : env) (argv : list string) : io unit :=
  (if Nat.ltb (List.length argv) 3 then
    print usage ;;;
    sys_exit 1%Z
  else
    let json_file := nth 1 argv "" in
    let output_folder := nth 2 argv "" in
    found <- path_exists e json_file ;;
    if negb found then
      print ("Error: JSON file not found: " ++ json_file) ;;;
      sys_exit 1%Z
    else
      json_to_csv e json_file output_folder ;;;
      io_ret tt)%io.

(** Exit status of the process for the way [main] ended. *)
Definition exit_status (r : outcome unit) : Z :=
  match r with
  | Ok _ => 0%Z
  | Raise (SystemExit code) => code
  | Raise _ => 1%Z
  end.

(** ** Derived notions used to state the properties *)

(** A result record: a JSON object. *)
Definition is_record (v : value) : bool :=
  match v with VDict _ => true | _ => false end.

(** The items the loop of line 80 visits (none when the object cannot be
    iterated). *)
Definition loop_items (results : value) : list value :=
  match py_iter results with
  | Ok items => items
  | Raise _ => []
  end.

(** The line written for one result, when its row can be built. *)
Definition row_line (event_key pen : value) (result : value) : outcome string :=
  (row <- make_row event_key pen result ;;
   fields <- dict_to_list fieldnames row ;;
   Ok (csv_line fields))%outcome.

(** The data lines the loop writes, up to the first result that raises. *)
Fixpoint rows_written (event_key pen : value) (items : list value) : list string :=
  match items with
  | [] => []
  | result :: rest =>
      match row_line event_key pen result with
      | Ok line => line :: rows_written event_key pen rest
      | Raise _ => []
      end
  end.

(** How the loop ends: the first exception a result raises, if any. *)
Fixpoint rows_outcome (event_key pen : value) (items : list value) : outcome unit :=
  match items with
  | [] => Ok tt
  | result :: rest =>
      match row_line event_key pen result with
      | Ok _ => rows_outcome event_key pen rest
      | Raise e => Raise e
      end
  end.

(** The path of line 59 for the values of a run. *)
Definition output_path (e : env) (output_folder : string)
  (event_key pen : value) : pypath :=
  PathJoin output_folder (output_name event_key pen (strftime_Ymd_HMS (now e))).

(** A text given by a template in which ['] stands for the quote
    character. *)
Definition with_quotes (template : string) : string :=
  str_replace_char SQUOTE (str1 DQUOTE) template.

(** The header line as it stands in the file. *)
Definition header_text : string :=
  with_quotes
    "'EventKey','Pen','Position','Name','Team','Country','Time','DeltaTime','Distance','DeltaDistance','Points','Gender','UID','ARR','ARRBand','EventRating','EventRatingBand','AgeBand','NGB','NGB ID','UCI ID'"
  ++ String CR (str1 LF).


(** Events that touch the file system at all. *)
Definition file_access (ev : event) : bool :=
  match ev with
  | EPrint _ | EPrintConverted _ => false
  | _ => true
  end.

(** Events that read or parse the input. *)
Definition parse_attempt (ev : event) : bool :=
  match ev with
  | EOpenRead _ | EJsonLoad _ => true
  | _ => false
  end.

(** The lines of fixed text printed by lines 51, 109, 116 and 123, in
    order.  The line of line 108 holds the path the way pathlib prints it
    and is kept as the event [EPrintConverted]. *)
Fixpoint printed (log : list event) : list string :=
  match log with
  | [] => []
  | EPrint line :: rest => line :: printed rest
  | _ :: rest => printed rest
  end.

Definition is_digit (c : ascii) : bool :=
  let n := nat_of_ascii c in Nat.leb 48 n && Nat.leb n 57.

(** Exactly [n] characters, all digits. *)
Definition digits_exactly (n : nat) (s : string) : bool :=
  Nat.eqb (String.length s) n && string_forallb is_digit s.

(** [p] holds of [lo], [lo + 1], ..., [count] numbers in all. *)
Fixpoint range_forallb (p : Z -> bool) (lo : Z) (count : nat) : bool :=
  match count with
  | O => true
  | S n => p lo && range_forallb p (lo + 1) n
  end.

(** YYYYMMDD_HHMMSS: eight digits, an underscore, six digits. *)
Definition timestamp_shape (s : string) : bool :=
  Nat.eqb (String.length s) 15
  && string_forallb is_digit (String.substring 0 8 s)
  && String.eqb (String.substring 8 1 s) "_"
  && string_forallb is_digit (String.substring 9 6 s).

(** Characters a float's repr is made of: digits, point, exponent, sign,
    and the letters of inf and nan. *)
Definition float_repr_ok (r : string) : bool :=
  string_forallb (fun c => string_mem c "0123456789.e+-infa") r.

(** *** The specification's reading of the row and of the quoting rule *)

(** Following the specification's alias table: output field, the alternate
    keys in the order tried, the default. *)
Definition alias_table (event_key pen : value)
  : list (string * list string * value) :=
  [ ("EventKey", ["event_key"], event_key);
    ("Pen", ["pen"], pen);
    ("Position", ["position"], VStr "");
    ("Name", ["name"], VStr "");
    ("Team", ["team"], VStr "");
    ("Country", ["country"], VStr "");
    ("Time", ["time"], VInt 0);
    ("DeltaTime", ["delta_time"], VInt 0);
    ("Distance", ["distance"], VFloat "32417.966");
    ("DeltaDistance", ["delta_distance"], VInt 0);
    ("Points", ["points"], VInt 0);
    ("Gender", ["gender"], VStr "");
    ("UID", ["uid"; "user_id"], VStr "");
    ("ARR", ["arr"], VStr "");
    ("ARRBand", ["arr_band"], VStr "");
    ("EventRating", ["event_rating"], VStr "");
    ("EventRatingBand", ["event_rating_band"], VStr "");
    ("AgeBand", ["age_band"], VStr "");
    ("NGB", ["ngb"], VStr "");
    ("NGB ID", ["ngb_id"], VStr "");
    ("UCI ID", ["uci_id"], VStr "") ].

(** Following the specification: the value of the first candidate key the
    record has, else the default. *)
Fixpoint resolve (record : dict) (keys : list string) (default : value) : value :=
  match keys with
  | [] => default
  | k :: ks =>
      match dict_lookup record k with
      | Some v => v
      | None => resolve record ks default
      end
  end.

(** Following the specification: each field resolved by its PascalCase key,
    then its alternates, then its default. *)
Definition spec_row (event_key pen : value) (record : dict) : dict :=
  map (fun entry =>
         let '(field, alternates, default) := entry in
         (field, resolve record (field :: alternates) default))
      (alias_table event_key pen).

(** Following the specification's wording of the quoting rule: a text is
    numeric-looking when it reads as a decimal number, i.e. an optional
    minus sign, digits, and at most one decimal point among them. *)
Fixpoint digits_and_points (points : nat) (s : string) : option nat :=
  match s with
  | EmptyString => Some points
  | String c s' =>
      if is_digit c then digits_and_points points s'
      else if Ascii.eqb c "."%char then digits_and_points (S points) s'
      else None
  end.

Definition numeric_looking (s : string) : bool :=
  let body := match s with
              | String "-"%char s' => s'
              | _ => s
              end in
  string_existsb is_digit body
  && match digits_and_points 0 body with
     | Some n => Nat.leb n 1
     | None => false
     end.

(** The field the specification's wording asks for: numeric-looking text
    bare, any other text in quotes. *)
Definition spec_field (v : value) : string :=
  if numeric_looking (field_text v) then field_text v
  else quote_field (field_text v).

(** ** Sample inputs *)

Definition sample_clock : datetime :=
  {| year := 2026; month := 3; day := 9; hour := 7; minute := 5; second := 42 |}%Z.

(** {"event_key": 88022, "pen": 3, "results": [{"position": 1, "name": "A. Runner"}]} *)
Definition sample_document : value :=
  VDict [ ("event_key", VInt 88022); ("pen", VInt 3);
          ("results",
           VList [ VDict [("position", VInt 1); ("name", VStr "A. Runner")] ]) ].

(** [{"name":"X"},{"name":"Y"}] *)
Definition sample_list : value :=
  VList [ VDict [("name", VStr "X")]; VDict [("name", VStr "Y")] ].

(** {"Name": "Upper", "name": "lower"} *)
Definition sample_both_spellings : dict :=
  [ ("Name", VStr "Upper"); ("name", VStr "lower") ].

(** A system on which every path the conversion asks for can be opened. *)
Definition sample_env (doc : value) : env :=
  {| fs := [("in.json", JsonFile doc)]; now := sample_clock;
     linesep := str1 LF; opens := fun _ => true |}.

(** A system that lets no path be opened but the one named by the
    defaults, as one with no directory below the output folder does for a
    name that holds a separator. *)
Definition bare_env (doc : value) : env :=
  {| fs := [("in.json", JsonFile doc)]; now := sample_clock;
     linesep := str1 LF; opens := fun _ => false |}.

(** {"event_key": "a/b", "results": [{}]} *)
Definition slash_document : value :=
  VDict [ ("event_key", VStr "a/b"); ("results", VList [VDict []]) ].

(** *** Notions for the behaviour outside the documented shapes *)

(** How the loop of lines 80-106 ends for a record list: the exception of
    the iteration itself, or of the first result that raises. *)
Definition loop_outcome (event_key pen : value) (results : value) : outcome unit :=
  match py_iter results with
  | Ok items => rows_outcome event_key pen items
  | Raise ex => Raise ex
  end.

(** Every key lines 83-103 look up in a result. *)
Definition candidate_keys : list string :=
  flat_map (fun entry => let '(field, alternates, _) := entry in field :: alternates)
           (alias_table VNone VNone).

(** The same environment on a platform with another line separator. *)
Definition with_linesep (e : env) (sep : string) : env :=
  {| fs := fs e; now := now e; linesep := sep; opens := opens e |}.

(** Use of files in a log: a file is opened only when none is open, it is
    written and closed only while it is the open one, and [still_open]
    tells what is open at the start.  The scan returns what is open at the
    end, or [None] at the first event out of order. *)
Fixpoint scan_files (still_open : option textfile) (log : list event)
  : option (option textfile) :=
  match log with
  | [] => Some still_open
  | EOpenWrite f :: rest =>
      match still_open with
      | None => scan_files (Some f) rest
      | Some _ => None
      end
  | EWrite f _ :: rest =>
      match still_open with
      | Some g => if path_eqb (tf_path f) (tf_path g)
                  then scan_files still_open rest else None
      | None => None
      end
  | EClose f :: rest =>
      match still_open with
      | Some g => if path_eqb (tf_path f) (tf_path g)
                  then scan_files None rest else None
      | None => None
      end
  | _ :: rest => scan_files still_open rest
  end.

(** Every file the log opens is written only while open and is closed by
    the end. *)
Definition files_closed (log : list event) : bool :=
  match scan_files None log with
  | Some None => true
  | _ => false
  end.

(** The number a zero-padded text reads as. *)
Definition read_number (s : string) : option Z :=
  option_map Z.of_int (NilZero.int_of_string s).



(** Events that print. *)
Definition is_print (ev : event) : bool :=
  match ev with
  | EPrint _ | EPrintConverted _ => true
  | _ => false
  end.

(** The shapes a run of json_to_csv can have: the events and the way the
    call ends.  [rows] are the data lines written. *)
Inductive run_shape (e : env) (json_file_path output_folder : string)
  : io (option pypath) -> Prop :=
| RunUnreadable :
    run_shape e json_file_path output_folder
      ([EOpenRead json_file_path], Raise OSError)
| RunNotJson :
    run_shape e json_file_path output_folder
      ([EOpenRead json_file_path; EJsonLoad json_file_path], Raise ValueError)
| RunTooDeep :
    run_shape e json_file_path output_folder
      ([EOpenRead json_file_path; EJsonLoad json_file_path], Raise RecursionError)
| RunBadRoot (ex : exn) :
    ex = TypeError \/ ex = AttributeError ->
    run_shape e json_file_path output_folder
      ([EOpenRead json_file_path; EJsonLoad json_file_path], Raise ex)
| RunNoResults :
    run_shape e json_file_path output_folder
      ([ EOpenRead json_file_path; EJsonLoad json_file_path;
         EPrint "No results found in JSON data" ], Ok None)
| RunRefused (ex : exn) :
    ex = OSError \/ ex = ValueError ->
    run_shape e json_file_path output_folder
      ([ EOpenRead json_file_path; EJsonLoad json_file_path;
         EMkdir output_folder ], Raise ex)
| RunBroken (event_key pen : value) (rows : list string) (ex : exn) :
    ex = TypeError \/ ex = AttributeError ->
    run_shape e json_file_path output_folder
      ((EOpenRead json_file_path
          :: EJsonLoad json_file_path
          :: EMkdir output_folder
          :: EOpenWrite (output_textfile (output_path e output_folder event_key pen))
          :: map (EWrite (output_textfile (output_path e output_folder event_key pen)))
                 (banner :: str1 LF :: header_text :: rows)
          ++ [EClose (output_textfile (output_path e output_folder event_key pen))])%list,
       Raise ex)
| RunDone (event_key pen : value) (rows : list string) :
    rows <> [] ->
    run_shape e json_file_path output_folder
      ((EOpenRead json_file_path
          :: EJsonLoad json_file_path
          :: EMkdir output_folder
          :: EOpenWrite (output_textfile (output_path e output_folder event_key pen))
          :: map (EWrite (output_textfile (output_path e output_folder event_key pen)))
                 (banner :: str1 LF :: header_text :: rows)
          ++ [ EClose (output_textfile (output_path e output_folder event_key pen));
               EPrintConverted (output_path e output_folder event_key pen);
               EPrint ("  - " ++ str_of_nat (List.length rows)
                       ++ " results processed") ])%list,
       Ok (Some (output_path e output_folder event_key pen))).

(** * Properties *)

(** ** Strings *)


Lemma append_assoc (s t u : string) : (s ++ t) ++ u = s ++ (t ++ u).
Proof. induction s as [|c s IH]; simpl; [reflexivity|now rewrite IH]. Qed.

Lemma uint_no_special (d : Decimal.uint) :
  string_existsb csv_special (NilZero.string_of_uint d) = false.
Proof.
  assert (H : string_existsb csv_special (NilEmpty.string_of_uint d) = false)
    by (induction d; simpl; auto).
  destruct d; simpl in *; auto.
Qed.

Lemma str_of_Z_no_special (z : Z) :
  string_existsb csv_special (str_of_Z z) = false.
Proof.
  unfold str_of_Z, NilZero.string_of_int.
  destruct (Z.to_int z) as [d|d].
  - apply uint_no_special.
  - simpl. apply uint_no_special.
Qed.

Lemma float_repr_no_special (r : string) :
  float_repr_ok r = true -> string_existsb csv_special r = false.
Proof.
  unfold float_repr_ok.
  induction r as [|c r IH]; simpl; [reflexivity|].
  intros H. apply andb_true_iff in H as [Hc Hr].
  rewrite (IH Hr), orb_false_r.
  destruct c as [[] [] [] [] [] [] [] []]; vm_compute in Hc |- *;
    first [reflexivity | discriminate].
Qed.

(** ** Dictionaries *)

Lemma dict_has_false (d : dict) (key : string) :
  dict_has d key = false -> dict_lookup d key = None.
Proof.
  unfold dict_has. destruct (dict_lookup d key); [discriminate|reflexivity].
Qed.

Lemma get2_resolve (d : dict) (k1 k2 : string) (default : value) :
  get2 (VDict d) k1 k2 default = Ok (resolve d [k1; k2] default).
Proof.
  unfold get2, dict_get; simpl. unfold dict_get.
  destruct (dict_lookup d k1); reflexivity.
Qed.

Lemma get3_resolve (d : dict) (k1 k2 k3 : string) (default : value) :
  get3 (VDict d) k1 k2 k3 default = Ok (resolve d [k1; k2; k3] default).
Proof.
  unfold get3; simpl. rewrite get2_resolve. simpl. unfold dict_get.
  destruct (dict_lookup d k1), (dict_lookup d k2); reflexivity.
Qed.

Lemma make_row_record (event_key pen : value) (record : dict) :
  make_row event_key pen (VDict record) = Ok (spec_row event_key pen record).
Proof.
  unfold make_row, row_items.
  repeat rewrite get2_resolve. rewrite get3_resolve. reflexivity.
Qed.

Lemma row_line_record (event_key pen : value) (record : dict) :
  row_line event_key pen (VDict record)
  = Ok (csv_line (map snd (spec_row event_key pen record))).
Proof.
  unfold row_line. rewrite make_row_record. reflexivity.
Qed.

(** ** The dispatch on the document *)

Lemma extract_results_with_key (d : dict) (results : value) :
  dict_lookup d "results" = Some results ->
  extract_results (VDict d)
  = Ok (results, resolve d ["event_key"; "EventKey"] (VStr "88000"),
        resolve d ["pen"; "Pen"] (VStr "1")).
Proof.
  intros H. unfold extract_results, py_contains, py_getitem, dict_has, obind.
  rewrite H, !get2_resolve. reflexivity.
Qed.

Lemma extract_results_single_object (d : dict) :
  dict_has d "results" = false ->
  extract_results (VDict d)
  = Ok (VList [VDict d], resolve d ["event_key"; "EventKey"] (VStr "88000"),
        resolve d ["pen"; "Pen"] (VStr "1")).
Proof.
  intros H. unfold extract_results, py_contains, obind.
  rewrite H, !get2_resolve. reflexivity.
Qed.

Lemma extract_results_list (items : list value) :
  extract_results (VList items)
  = if existsb (py_eq_str "results") items then Raise TypeError
    else Ok (VList items, VStr "88000", VStr "1").
Proof.
  unfold extract_results; simpl.
  destruct (existsb (py_eq_str "results") items); reflexivity.
Qed.

Lemma records_lack_strings (s : string) (items : list value) :
  forallb is_record items = true -> existsb (py_eq_str s) items = false.
Proof.
  induction items as [|v items IH]; simpl; [reflexivity|].
  intros H. apply andb_true_iff in H as [Hv Hi].
  rewrite (IH Hi). destruct v; simpl in *; try discriminate; reflexivity.
Qed.

Lemma existsb_py_eq_str_In (s : string) (items : list value) :
  existsb (py_eq_str s) items = true <-> In (VStr s) items.
Proof.
  rewrite existsb_exists. split.
  - intros [v [Hin Heq]]. destruct v; simpl in Heq; try discriminate.
    apply String.eqb_eq in Heq. now subst.
  - intros Hin. exists (VStr s). split; [assumption|]. simpl. apply String.eqb_refl.
Qed.

(** ** The loop over the results *)

Lemma for_each_rows (e : env) (f : textfile) (event_key pen : value)
  (items : list value) :
  tf_newline f = Some "" ->
  for_each
    (fun result =>
       (row <- lift (make_row event_key pen result) ;;
        writerow e f fieldnames row)%io)
    items
  = (map (EWrite f) (rows_written event_key pen items),
     rows_outcome event_key pen items).
Proof.
  intros Hnl. induction items as [|result rest IH]; [reflexivity|].
  cbn [for_each rows_written rows_outcome]. rewrite IH.
  unfold row_line, writerow, f_write, translate_newlines, lift, tell, io_bind, obind.
  rewrite Hnl.
  destruct (make_row event_key pen result) as [row|ex]; [|reflexivity].
  destruct (dict_to_list fieldnames row) as [fields|ex]; reflexivity.
Qed.

Lemma rows_written_records (event_key pen : value) (records : list dict) :
  rows_written event_key pen (map VDict records)
  = map (fun record => csv_line (map snd (spec_row event_key pen record))) records.
Proof.
  induction records as [|r records IH]; [reflexivity|].
  cbn [map rows_written]. now rewrite row_line_record, IH.
Qed.



Lemma header_line_text : csv_line (map VStr fieldnames) = header_text.
Proof. reflexivity. Qed.

(** The body of the [with] block, as the writes it makes and how it ends. *)
Lemma write_csv_log (e : env) (p : pypath) (results event_key pen : value) :
  write_csv e (output_textfile p) results event_key pen
  = (EWrite (output_textfile p) banner
       :: EWrite (output_textfile p) (str1 LF)
       :: EWrite (output_textfile p) header_text
       :: map (EWrite (output_textfile p))
              (rows_written event_key pen (loop_items results)),
     match py_iter results with
     | Ok items => rows_outcome event_key pen items
     | Raise ex => Raise ex
     end).
Proof.
  unfold write_csv, loop_items.
  destruct (py_iter results) as [items|ex].
  - unfold lift at 1. cbn [io_bind]. rewrite for_each_rows by reflexivity.
    reflexivity.
  - reflexivity.
Qed.

(** ** Files read back from the log *)

Lemma path_eqb_refl (p : pypath) : path_eqb p p = true.
Proof. destruct p; simpl. now rewrite !String.eqb_refl. Qed.







(** ** Opening the output file *)

Lemma open_error_opens (e : env) (folder name : string) :
  string_mem NUL name = false ->
  opens e (PathJoin folder name) = true ->
  open_error e (PathJoin folder name) = None.
Proof.
  intros Hnul H. unfold open_error. now rewrite Hnul, H, orb_true_r.
Qed.

Lemma open_error_kinds (e : env) (p : pypath) (ex : exn) :
  open_error e p = Some ex -> ex = OSError \/ ex = ValueError.
Proof.
  destruct p as [folder name]. unfold open_error.
  destruct (string_mem NUL name); [intros H; injection H as <-; auto|].
  destruct (String.eqb name (default_output_name e)
            || opens e (PathJoin folder name)); [discriminate|].
  intros H; injection H as <-; auto.
Qed.

(** ** The conversion of extracted results *)

Section Convert.

Variables (e : env) (output_folder : string) (event_key pen : value).

Local Abbreviation out :=
  (output_textfile (output_path e output_folder event_key pen)).

Lemma convert_falsy (results : value) :
  py_truthy results = false ->
  convert e output_folder results event_key pen
  = ([EPrint "No results found in JSON data"], Ok None).
Proof. intros H. unfold convert. rewrite H. reflexivity. Qed.

(** When the output file cannot be opened the folder has been made and
    nothing else happens. *)
Lemma convert_refused (results : value) (ex : exn) :
  py_truthy results = true ->
  open_error e (output_path e output_folder event_key pen) = Some ex ->
  convert e output_folder results event_key pen
  = ([EMkdir output_folder], Raise ex).
Proof.
  intros Ht Hno. unfold convert. rewrite Ht. cbn [negb].
  fold (output_path e output_folder event_key pen).
  unfold with_open. cbn [output_textfile tf_path]. rewrite Hno. reflexivity.
Qed.

Hypothesis Hopen :
  open_error e (output_path e output_folder event_key pen) = None.


Section Truthy.

Variable results : value.
Hypothesis Htruthy : py_truthy results = true.





End Truthy.

End Convert.

(** ** json_to_csv on a document that loads *)

Lemma json_to_csv_loaded (e : env) (json_file_path output_folder : string)
  (data results event_key pen : value) :
  fs_lookup (fs e) json_file_path = Some (JsonFile data) ->
  extract_results data = Ok (results, event_key, pen) ->
  json_to_csv e json_file_path output_folder
  = (([EOpenRead json_file_path; EJsonLoad json_file_path]
      ++ fst (convert e output_folder results event_key pen))%list,
     snd (convert e output_folder results event_key pen)).
Proof.
  intros Hfs Hex. unfold json_to_csv, read_json. rewrite Hfs.
  cbn. rewrite Hex. cbn.
  destruct (convert e output_folder results event_key pen) as [log r].
  reflexivity.
Qed.

Lemma json_to_csv_extract_raises (e : env) (json_file_path output_folder : string)
  (data : value) (ex : exn) :
  fs_lookup (fs e) json_file_path = Some (JsonFile data) ->
  extract_results data = Raise ex ->
  json_to_csv e json_file_path output_folder
  = ([EOpenRead json_file_path; EJsonLoad json_file_path], Raise ex).
Proof.
  intros Hfs Hex. unfold json_to_csv, read_json. rewrite Hfs.
  cbn. rewrite Hex. reflexivity.
Qed.


(** A run whose output file cannot be opened. *)
Lemma json_to_csv_refused (e : env) (json_file_path output_folder : string)
  (data results event_key pen : value) (ex : exn) :
  fs_lookup (fs e) json_file_path = Some (JsonFile data) ->
  extract_results data = Ok (results, event_key, pen) ->
  py_truthy results = true ->
  open_error e (output_path e output_folder event_key pen) = Some ex ->
  json_to_csv e json_file_path output_folder
  = ([ EOpenRead json_file_path; EJsonLoad json_file_path;
       EMkdir output_folder ], Raise ex).
Proof.
  intros Hfs Hex Ht Hno.
  rewrite (json_to_csv_loaded _ _ _ _ _ _ _ Hfs Hex).
  now rewrite (convert_refused _ _ _ _ _ _ Ht Hno).
Qed.

(** * Runs on concrete documents *)

Example py_str_of_values :
  map py_str [ VInt 88022; VInt (-7); VStr "3"; VNone; VBool false;
               VFloat "32417.966";
               VList [VInt 1; VStr "a"; VDict [("k", VNone)]] ]
  = [ "88022"; "-7"; "3"; "None"; "False"; "32417.966";
      "[1, 'a', {'k': None}]" ].
Proof. reflexivity. Qed.

Example strftime_sample : strftime_Ymd_HMS sample_clock = "20260309_070542".
Proof. reflexivity. Qed.

(** The document of the specification's example: one row, position bare,
    name quoted, defaults for the rest. *)
Example run_sample_document :
  snd (json_to_csv (sample_env sample_document) "in.json" "out")
  = Ok (Some (PathJoin "out"
                "TPVirtual-Results-Event88022-Pen3-20260309_070542.csv"))
  /\ data_rows (fst (json_to_csv (sample_env sample_document) "in.json" "out"))
       (PathJoin "out" "TPVirtual-Results-Event88022-Pen3-20260309_070542.csv")
     = Some
         [ with_quotes
             "88022,3,1,'A. Runner','','',0,0,32417.966,0,0,'','','','','','','','','',''"
           ++ String CR (str1 LF) ]
  /\ filter is_print
       (fst (json_to_csv (sample_env sample_document) "in.json" "out"))
     = [ EPrintConverted
           (PathJoin "out"
              "TPVirtual-Results-Event88022-Pen3-20260309_070542.csv");
         EPrint "  - 1 results processed" ].
Proof. repeat split. Qed.

(** A list whose second element is not an object: the first row is
    written, then [result.get] raises and the file stays as it is. *)
Example run_list_with_a_number :
  snd (json_to_csv
         (sample_env (VList [VDict [("name", VStr "X")]; VInt 4]))
         "in.json" "out")
  = Raise AttributeError
  /\ data_rows
       (fst (json_to_csv
               (sample_env (VList [VDict [("name", VStr "X")]; VInt 4]))
               "in.json" "out"))
       (PathJoin "out" "TPVirtual-Results-Event88000-Pen1-20260309_070542.csv")
     = Some
         [ with_quotes
             "'88000','1','','X','','',0,0,32417.966,0,0,'','','','','','','','','',''"
           ++ String CR (str1 LF) ].
Proof. repeat split. Qed.

(** Roots that are neither objects nor lists. *)
Example run_scalar_roots :
  map (fun doc => json_to_csv (sample_env doc) "in.json" "out")
      [ VInt 5; VNone; VStr "abc"; VStr "my results" ]
  = [ ([EOpenRead "in.json"; EJsonLoad "in.json"], Raise TypeError);
      ([EOpenRead "in.json"; EJsonLoad "in.json"], Raise TypeError);
      ([EOpenRead "in.json"; EJsonLoad "in.json"], Raise AttributeError);
      ([EOpenRead "in.json"; EJsonLoad "in.json"], Raise TypeError) ].
Proof. reflexivity. Qed.

(** A [results] value that is falsy without being a list is reported as no
    results; one that is an object is iterated by its keys. *)
Example run_odd_results :
  json_to_csv (sample_env (VDict [("results", VInt 0)])) "in.json" "out"
  = ([ EOpenRead "in.json"; EJsonLoad "in.json";
       EPrint "No results found in JSON data" ], Ok None)
  /\ snd (json_to_csv
            (sample_env (VDict [("results", VDict [("a", VDict [])])]))
            "in.json" "out")
     = Raise AttributeError.
Proof. split; reflexivity. Qed.

(** Unreadable input. *)
Example run_unreadable_input :
  json_to_csv {| fs := [("in.json", BadFile)]; now := sample_clock;
                 linesep := str1 LF; opens := fun _ => true |} "in.json" "out"
  = ([EOpenRead "in.json"; EJsonLoad "in.json"], Raise ValueError)
  /\ json_to_csv {| fs := [("in.json", DeepJson)]; now := sample_clock;
                    linesep := str1 LF; opens := fun _ => true |}
       "in.json" "out"
     = ([EOpenRead "in.json"; EJsonLoad "in.json"], Raise RecursionError)
  /\ json_to_csv {| fs := []; now := sample_clock; linesep := str1 LF;
                    opens := fun _ => true |}
       "in.json" "out"
     = ([EOpenRead "in.json"], Raise OSError).
Proof. repeat split. Qed.

(** An event key with a separator or a NUL: the name asks for a directory
    that is not there, or is refused outright, and the call ends at the
    open, after the folder is made. *)
Example run_names_that_do_not_open :
  json_to_csv (bare_env slash_document) "in.json" "out"
  = ([EOpenRead "in.json"; EJsonLoad "in.json"; EMkdir "out"], Raise OSError)
  /\ json_to_csv
       (sample_env (VDict [ ("event_key", VStr (str1 NUL));
                            ("results", VList [VDict []]) ]))
       "in.json" "out"
     = ([EOpenRead "in.json"; EJsonLoad "in.json"; EMkdir "out"],
        Raise ValueError)
  /\ path_name (output_path (bare_env slash_document) "out"
                  (VStr "a/b") (VStr "1"))
     = "b-Pen1-20260309_070542.csv".
Proof. repeat split. Qed.

(** * The claims *)

(** C1. For every result record, the row built at lines 82-104 gives each
    of the 21 output fields the value of its PascalCase key when the record
    has it, else of its snake_case alternate (for UID: uid, then user_id),
    else the field's default (the document's event key and pen; the empty
    string; 0 for Time, DeltaTime, DeltaDistance and Points; 32417.966 for
    Distance).  Building the row never raises, every field gets a value,
    and a PascalCase key present in the record always wins. *)
Theorem C1_row_fields_by_precedence (event_key pen : value) (record : dict) :
  make_row event_key pen (VDict record) = Ok (spec_row event_key pen record)
  /\ map fst (spec_row event_key pen record) = fieldnames
  /\ List.length fieldnames = 21
  /\ (forall field, In field fieldnames ->
        exists v, dict_lookup (spec_row event_key pen record) field = Some v)
  /\ (forall field v, In field fieldnames ->
        dict_lookup record field = Some v ->
        dict_lookup (spec_row event_key pen record) field = Some v)
  /\ make_row event_key pen (VDict [])
     = Ok [ ("EventKey", event_key); ("Pen", pen); ("Position", VStr "");
            ("Name", VStr ""); ("Team", VStr ""); ("Country", VStr "");
            ("Time", VInt 0); ("DeltaTime", VInt 0);
            ("Distance", VFloat "32417.966"); ("DeltaDistance", VInt 0);
            ("Points", VInt 0); ("Gender", VStr ""); ("UID", VStr "");
            ("ARR", VStr ""); ("ARRBand", VStr ""); ("EventRating", VStr "");
            ("EventRatingBand", VStr ""); ("AgeBand", VStr "");
            ("NGB", VStr ""); ("NGB ID", VStr ""); ("UCI ID", VStr "") ].
Proof.
  split; [apply make_row_record|].
  split; [reflexivity|].
  split; [reflexivity|].
  split; [|split; [|reflexivity]].
  - intros field Hin. simpl in Hin.
    repeat (destruct Hin as [<-|Hin]; [eexists; reflexivity|]).
    contradiction.
  - intros field v Hin Hv. simpl in Hin.
    repeat (destruct Hin as [<-|Hin];
            [cbn [spec_row alias_table map dict_lookup String.eqb Ascii.eqb Bool.eqb resolve];
             now rewrite Hv|]).
    contradiction.
Qed.

Lemma C1_row_fields_by_precedence_witness :
  dict_lookup sample_both_spellings "Name" = Some (VStr "Upper")
  /\ dict_lookup sample_both_spellings "name" = Some (VStr "lower")
  /\ dict_lookup (spec_row (VStr "88000") (VStr "1") sample_both_spellings) "Name"
     = Some (VStr "Upper").
Proof.
  split; [reflexivity|]. split; [reflexivity|].
  apply (proj1 (proj2 (proj2 (proj2 (proj2
           (C1_row_fields_by_precedence (VStr "88000") (VStr "1")
              sample_both_spellings))))) "Name" (VStr "Upper")).
  - simpl. tauto.
  - reflexivity.
Defined.

(** C2. The dispatch of lines 35-48.  A root object with a [results] key
    gives that key's value as the record list, and reads event key and pen
    from the root ([event_key], else [EventKey]; [pen], else [Pen]), with
    '88000' and '1' when neither spelling is there.  A root that is a
    sequence of records is the record list itself, with '88000' and '1'.
    Any other root object is wrapped into a one-element list, event key and
    pen read as in the first case. *)
Theorem C2_three_shape_dispatch :
  (forall (d : dict) (results : value),
      dict_lookup d "results" = Some results ->
      extract_results (VDict d)
      = Ok (results, resolve d ["event_key"; "EventKey"] (VStr "88000"),
            resolve d ["pen"; "Pen"] (VStr "1")))
  /\ (forall items : list value,
         forallb is_record items = true ->
         extract_results (VList items) = Ok (VList items, VStr "88000", VStr "1"))
  /\ (forall d : dict,
         dict_has d "results" = false ->
         extract_results (VDict d)
         = Ok (VList [VDict d], resolve d ["event_key"; "EventKey"] (VStr "88000"),
               resolve d ["pen"; "Pen"] (VStr "1")))
  /\ (forall d : dict,
         dict_has d "event_key" = false -> dict_has d "EventKey" = false ->
         resolve d ["event_key"; "EventKey"] (VStr "88000") = VStr "88000")
  /\ (forall d : dict,
         dict_has d "pen" = false -> dict_has d "Pen" = false ->
         resolve d ["pen"; "Pen"] (VStr "1") = VStr "1").
Proof.
  split; [exact extract_results_with_key|].
  split.
  { intros items Hrec. rewrite extract_results_list.
    now rewrite (records_lack_strings _ _ Hrec). }
  split; [exact extract_results_single_object|].
  split; intros d H1 H2; simpl;
    now rewrite (dict_has_false _ _ H1), (dict_has_false _ _ H2).
Qed.

Lemma C2_three_shape_dispatch_witness :
  extract_results sample_document
  = Ok (VList [ VDict [("position", VInt 1); ("name", VStr "A. Runner")] ],
        VInt 88022, VInt 3)
  /\ extract_results sample_list = Ok (sample_list, VStr "88000", VStr "1")
  /\ extract_results (VDict [("name", VStr "X")])
     = Ok (VList [VDict [("name", VStr "X")]], VStr "88000", VStr "1").
Proof.
  destruct C2_three_shape_dispatch as [Hkey [Hlist [Hobj _]]].
  split; [|split].
  - apply (Hkey [ ("event_key", VInt 88022); ("pen", VInt 3);
                  ("results",
                   VList [ VDict [("position", VInt 1);
                                  ("name", VStr "A. Runner")] ]) ]).
    reflexivity.
  - apply (Hlist [ VDict [("name", VStr "X")]; VDict [("name", VStr "Y")] ]).
    reflexivity.
  - apply (Hobj [("name", VStr "X")]). reflexivity.
Defined.







(** C5. When the record list is empty, json_to_csv prints the notice
    No results found in JSON data, returns normally with no path, and
    creates no directory and no file: the log holds nothing after the load
    but the notice.  For the document {"results": []} this is the whole
    run, the only thing reported is the notice (no record is processed),
    and the process ends with status 0. *)
Theorem C5_empty_results_write_nothing
  (e : env) (json_file_path output_folder : string)
  (data event_key pen : value) :
  fs_lookup (fs e) json_file_path = Some (JsonFile data) ->
  extract_results data = Ok (VList [], event_key, pen) ->
  json_to_csv e json_file_path output_folder
  = ([ EOpenRead json_file_path; EJsonLoad json_file_path;
       EPrint "No results found in JSON data" ], Ok None)
  /\ created_files (fst (json_to_csv e json_file_path output_folder)) = []
  /\ (forall p, file_content (fst (json_to_csv e json_file_path output_folder)) p
                = None)
  /\ printed (fst (json_to_csv e json_file_path output_folder))
     = ["No results found in JSON data"]
  /\ (forall prog extra,
        main e (prog :: json_file_path :: output_folder :: extra)
        = ([ EExists json_file_path; EOpenRead json_file_path;
             EJsonLoad json_file_path;
             EPrint "No results found in JSON data" ], Ok tt)
        /\ exit_status
             (snd (main e (prog :: json_file_path :: output_folder :: extra)))
           = 0%Z)
  /\ extract_results (VDict [("results", VList [])])
     = Ok (VList [], VStr "88000", VStr "1").
Proof.
  intros Hfs Hex.
  assert (Hrun : json_to_csv e json_file_path output_folder
                 = ([ EOpenRead json_file_path; EJsonLoad json_file_path;
                      EPrint "No results found in JSON data" ], Ok None)).
  { rewrite (json_to_csv_loaded _ _ _ _ _ _ _ Hfs Hex).
    now rewrite convert_falsy. }
  rewrite Hrun.
  repeat split.
  - unfold main. cbn [List.length Nat.ltb Nat.leb nth].
    unfold path_exists. rewrite Hfs. cbn. rewrite Hrun. reflexivity.
  - unfold main. cbn [List.length Nat.ltb Nat.leb nth].
    unfold path_exists. rewrite Hfs. cbn. rewrite Hrun. reflexivity.
Qed.

Lemma C5_empty_results_write_nothing_witness :
  json_to_csv (sample_env (VDict [("results", VList [])])) "in.json" "out"
  = ([ EOpenRead "in.json"; EJsonLoad "in.json";
       EPrint "No results found in JSON data" ], Ok None).
Proof.
  apply (C5_empty_results_write_nothing
           (sample_env (VDict [("results", VList [])])) "in.json" "out"
           (VDict [("results", VList [])]) (VStr "88000") (VStr "1"));
    reflexivity.
Defined.

(** ** Quoting *)

Lemma csv_field_not_number (v : value) :
  py_number_check v = false -> csv_field v = quote_field (field_text v).
Proof. intros H. unfold csv_field. now rewrite H. Qed.

Lemma csv_field_int (z : Z) : csv_field (VInt z) = str_of_Z z.
Proof.
  unfold csv_field; cbn [py_number_check negb orb field_text py_str py_repr].
  now rewrite str_of_Z_no_special.
Qed.

Lemma csv_field_float (r : string) :
  float_repr_ok r = true -> csv_field (VFloat r) = r.
Proof.
  intros H. unfold csv_field; cbn [py_number_check negb orb field_text py_str py_repr].
  now rewrite (float_repr_no_special _ H).
Qed.

(** C6 as stated fails on the code.  The default event key '88000' is a
    string that looks numeric, and it is written in quotes; the JSON value
    true is not numeric, and it is written bare, as True.  The bare list
    [{"name":"X"},{"name":"Y"}] of the specification is written with both
    defaults quoted. *)
Lemma C6_numeric_looking_string_is_quoted :
  numeric_looking (field_text (VStr "88000")) = true
  /\ csv_field (VStr "88000") = with_quotes "'88000'"
  /\ spec_field (VStr "88000") = "88000"
  /\ csv_field (VStr "88000") <> spec_field (VStr "88000")
  /\ numeric_looking (field_text (VBool true)) = false
  /\ csv_field (VBool true) = "True"
  /\ spec_field (VBool true) = with_quotes "'True'"
  /\ csv_field (VBool true) <> spec_field (VBool true)
  /\ data_rows (fst (json_to_csv (sample_env sample_list) "in.json" "out"))
               (output_path (sample_env sample_list) "out" (VStr "88000") (VStr "1"))
     = Some
         [ with_quotes
             "'88000','1','','X','','',0,0,32417.966,0,0,'','','','','','','','','',''"
           ++ String CR (str1 LF);
           with_quotes
             "'88000','1','','Y','','',0,0,32417.966,0,0,'','','','','','','','','',''"
           ++ String CR (str1 LF) ].
Proof. repeat split; discriminate. Qed.

(** C6, amended.  Fields are separated by commas and quoting follows the
    type of the parsed value, not the look of its text: integers, reals and
    booleans (numbers for Python) are written bare, as their str(); every
    other value is written between double quotes with inner quotes
    doubled: strings, also numeric-looking ones, null as the empty quoted
    field, and lists and objects as their str(). *)
Theorem C6_quoting_follows_the_type :
  (forall v, py_number_check v = false ->
             csv_field v = quote_field (field_text v))
  /\ (forall s, csv_field (VStr s) = String DQUOTE (double_quotes s ++ str1 DQUOTE))
  /\ csv_field VNone = String DQUOTE (str1 DQUOTE)
  /\ (forall z, csv_field (VInt z) = str_of_Z z)
  /\ (forall b, csv_field (VBool b) = if b then "True" else "False")
  /\ (forall r, float_repr_ok r = true -> csv_field (VFloat r) = r)
  /\ (forall fields,
        csv_line fields
        = String.concat "," (map csv_field fields) ++ String CR (str1 LF))
  /\ (forall event_key pen record,
        row_line event_key pen (VDict record)
        = Ok (String.concat ","
                (map csv_field (map snd (spec_row event_key pen record)))
              ++ String CR (str1 LF))).
Proof.
  split; [exact csv_field_not_number|].
  split; [reflexivity|].
  split; [reflexivity|].
  split; [exact csv_field_int|].
  split; [intros []; reflexivity|].
  split; [exact csv_field_float|].
  split; [reflexivity|].
  intros event_key pen record. now rewrite row_line_record.
Qed.

Lemma C6_quoting_follows_the_type_witness :
  float_repr_ok "32417.966" = true
  /\ csv_field (VFloat "32417.966") = "32417.966"
  /\ csv_field (VList [VInt 1; VInt 2]) = with_quotes "'[1, 2]'".
Proof.
  destruct C6_quoting_follows_the_type as [Hother [_ [_ [_ [_ [Hfloat _]]]]]].
  split; [reflexivity|]. split.
  - apply Hfloat. reflexivity.
  - apply (Hother (VList [VInt 1; VInt 2])). reflexivity.
Defined.

(** ** The time stamp *)

Lemma range_forallb_spec (p : Z -> bool) (count : nat) :
  forall lo : Z,
    range_forallb p lo count = true ->
    forall z : Z, (lo <= z < lo + Z.of_nat count)%Z -> p z = true.
Proof.
  induction count as [|n IH]; intros lo H z Hz; [lia|].
  cbn [range_forallb] in H. apply andb_true_iff in H as [Hlo Hrest].
  destruct (Z.eq_dec z lo) as [->|Hne]; [assumption|].
  apply (IH (lo + 1)%Z Hrest). lia.
Qed.

Lemma zero_pad_two_digits (z : Z) :
  (0 <= z <= 99)%Z -> digits_exactly 2 (zero_pad 2 z) = true.
Proof.
  intros Hz.
  apply (range_forallb_spec (fun n => digits_exactly 2 (zero_pad 2 n)) 100 0%Z);
    [vm_compute; reflexivity | lia].
Qed.

Lemma zero_pad_four_digits (z : Z) :
  (1000 <= z <= 9999)%Z -> digits_exactly 4 (zero_pad 4 z) = true.
Proof.
  intros Hz.
  apply (range_forallb_spec (fun n => digits_exactly 4 (zero_pad 4 n))
           (Z.to_nat 9000) 1000%Z);
    [vm_compute; reflexivity | lia].
Qed.

Lemma digits_exactly_app (n m : nat) (s t : string) :
  digits_exactly n s = true -> digits_exactly m t = true ->
  digits_exactly (n + m) (s ++ t) = true.
Proof.
  unfold digits_exactly. intros Hs Ht.
  apply andb_true_iff in Hs as [Hsl Hsd]. apply andb_true_iff in Ht as [Htl Htd].
  apply Nat.eqb_eq in Hsl, Htl. subst n m.
  apply andb_true_iff. split.
  - apply Nat.eqb_eq. clear. induction s; simpl; auto.
  - clear -Hsd Htd. induction s as [|c s IH]; simpl in *; [assumption|].
    apply andb_true_iff in Hsd as [Hc Hs]. now rewrite Hc, IH.
Qed.

Lemma timestamp_shape_parts (date time : string) :
  digits_exactly 8 date = true -> digits_exactly 6 time = true ->
  timestamp_shape (date ++ "_" ++ time) = true.
Proof.
  unfold digits_exactly, timestamp_shape. intros Hd Ht.
  destruct date as [|a1 [|a2 [|a3 [|a4 [|a5 [|a6 [|a7 [|a8 [|a9 date]]]]]]]]];
    try discriminate Hd.
  destruct time as [|b1 [|b2 [|b3 [|b4 [|b5 [|b6 [|b7 time]]]]]]];
    try discriminate Ht.
  cbn [String.length Nat.eqb andb string_forallb] in Hd, Ht.
  cbn [append String.length Nat.eqb andb String.substring string_forallb
       String.eqb].
  rewrite Hd, Ht, Ascii.eqb_refl. reflexivity.
Qed.

Lemma strftime_shape (t : datetime) :
  datetime_ok t = true -> timestamp_shape (strftime_Ymd_HMS t) = true.
Proof.
  unfold datetime_ok. intros H.
  repeat (apply andb_true_iff in H as [H ?]).
  unfold strftime_Ymd_HMS.
  assert (Hdate : digits_exactly 8
                    (zero_pad 4 (year t) ++ zero_pad 2 (month t)
                     ++ zero_pad 2 (day t)) = true).
  { apply (digits_exactly_app 4 4); [apply zero_pad_four_digits; lia|].
    apply (digits_exactly_app 2 2); apply zero_pad_two_digits; lia. }
  assert (Htime : digits_exactly 6
                    (zero_pad 2 (hour t) ++ zero_pad 2 (minute t)
                     ++ zero_pad 2 (second t)) = true).
  { apply (digits_exactly_app 2 4); [apply zero_pad_two_digits; lia|].
    apply (digits_exactly_app 2 2); apply zero_pad_two_digits; lia. }
  pose proof (timestamp_shape_parts _ _ Hdate Htime) as Hshape.
  rewrite !append_assoc in Hshape. exact Hshape.
Qed.












(** C8. With fewer than two arguments after the program name, main prints
    the usage line and exits with status 1 without touching any file.
    With a JSON path that does not exist, main prints
    Error: JSON file not found: followed by the path and exits with status
    1 without opening or parsing anything. *)
Theorem C8_main_rejects_bad_arguments (e : env) :
  (forall argv : list string,
      List.length argv < 3 ->
      main e argv
      = ([EPrint "Usage: python json_to_csv.py <json_file> <output_folder>"],
         Raise (SystemExit 1))
      /\ exit_status (snd (main e argv)) = 1%Z
      /\ existsb file_access (fst (main e argv)) = false)
  /\ (forall (prog json_file output_folder : string) (extra : list string),
         fs_lookup (fs e) json_file = None ->
         main e (prog :: json_file :: output_folder :: extra)
         = ([ EExists json_file;
              EPrint ("Error: JSON file not found: " ++ json_file) ],
            Raise (SystemExit 1))
         /\ exit_status
              (snd (main e (prog :: json_file :: output_folder :: extra)))
            = 1%Z
         /\ existsb parse_attempt
              (fst (main e (prog :: json_file :: output_folder :: extra)))
            = false).
Proof.
  split.
  - intros argv Hlen.
    assert (Hrun : main e argv = ([EPrint usage], Raise (SystemExit 1))).
    { unfold main. apply Nat.ltb_lt in Hlen. now rewrite Hlen. }
    rewrite Hrun. repeat split.
  - intros prog json_file output_folder extra Hfs.
    assert (Hrun : main e (prog :: json_file :: output_folder :: extra)
                   = ([ EExists json_file;
                        EPrint ("Error: JSON file not found: " ++ json_file) ],
                      Raise (SystemExit 1))).
    { unfold main. cbn [List.length Nat.ltb Nat.leb nth].
      unfold path_exists. rewrite Hfs. reflexivity. }
    rewrite Hrun. repeat split.
Qed.

Lemma C8_main_rejects_bad_arguments_witness :
  main (sample_env sample_document) ["json_to_csv.py"; "in.json"]
  = ([EPrint "Usage: python json_to_csv.py <json_file> <output_folder>"],
     Raise (SystemExit 1))
  /\ main (sample_env sample_document) ["json_to_csv.py"; "missing.json"; "out"]
     = ([ EExists "missing.json";
          EPrint "Error: JSON file not found: missing.json" ],
        Raise (SystemExit 1)).
Proof.
  destruct (C8_main_rejects_bad_arguments (sample_env sample_document))
    as [Husage Hmissing].
  split.
  - apply (Husage ["json_to_csv.py"; "in.json"]). simpl. lia.
  - apply (Hmissing "json_to_csv.py" "missing.json" "out" []). reflexivity.
Defined.



(** C10. For a root that is a list, ['results' in data] is a search among
    the elements: the list is used as the record list exactly when no
    element is the string results.  When one is, line 36 subscripts the
    list with a string: json_to_csv raises TypeError before it prints or
    writes anything, and the process ends with status 1. *)
Theorem C10_list_root_membership (items : list value) :
  py_contains "results" (VList items)
  = Ok (existsb (py_eq_str "results") items)
  /\ (extract_results (VList items) = Ok (VList items, VStr "88000", VStr "1")
      <-> ~ In (VStr "results") items)
  /\ (In (VStr "results") items ->
      extract_results (VList items) = Raise TypeError
      /\ forall (e : env) (json_file_path output_folder : string),
          fs_lookup (fs e) json_file_path = Some (JsonFile (VList items)) ->
          json_to_csv e json_file_path output_folder
          = ([EOpenRead json_file_path; EJsonLoad json_file_path],
             Raise TypeError)
          /\ forall (prog : string) (extra : list string),
              exit_status
                (snd (main e (prog :: json_file_path :: output_folder :: extra)))
              = 1%Z).
Proof.
  split; [reflexivity|]. split.
  - rewrite extract_results_list, <- existsb_py_eq_str_In.
    destruct (existsb (py_eq_str "results") items); split; intros H.
    + discriminate.
    + exfalso. now apply H.
    + intros Habs. discriminate Habs.
    + reflexivity.
  - intros Hin. apply existsb_py_eq_str_In in Hin.
    assert (Hex : extract_results (VList items) = Raise TypeError)
      by (now rewrite extract_results_list, Hin).
    split; [exact Hex|].
    intros e json_file_path output_folder Hfs.
    pose proof (json_to_csv_extract_raises _ _ output_folder _ _ Hfs Hex) as Hrun.
    split; [exact Hrun|].
    intros prog extra. unfold main. cbn [List.length Nat.ltb Nat.leb nth].
    unfold path_exists. rewrite Hfs. cbn. rewrite Hrun. reflexivity.
Qed.

Lemma C10_list_root_membership_witness :
  In (VStr "results") [VDict [("name", VStr "X")]; VStr "results"]
  /\ json_to_csv
       (sample_env (VList [VDict [("name", VStr "X")]; VStr "results"]))
       "in.json" "out"
     = ([EOpenRead "in.json"; EJsonLoad "in.json"], Raise TypeError).
Proof.
  assert (Hin : In (VStr "results") [VDict [("name", VStr "X")]; VStr "results"])
    by (simpl; tauto).
  split; [exact Hin|].
  apply (proj2 (proj2 (proj2 (C10_list_root_membership
                                [VDict [("name", VStr "X")]; VStr "results"]))
                  Hin)
           (sample_env (VList [VDict [("name", VStr "X")]; VStr "results"]))
           "in.json" "out" eq_refl).
Defined.

(** * Further properties of the code *)

(** ** Results that are not records *)



Lemma row_line_cases (event_key pen result : value) :
  (exists record, result = VDict record)
  \/ row_line event_key pen result = Raise AttributeError.
Proof.
  destruct result; try (right; reflexivity). left. eauto.
Qed.



Lemma rows_outcome_kinds (event_key pen : value) (items : list value) :
  rows_outcome event_key pen items = Ok tt
  \/ rows_outcome event_key pen items = Raise AttributeError.
Proof.
  induction items as [|result rest IH]; [now left|].
  cbn [rows_outcome].
  destruct (row_line_cases event_key pen result) as [[record ->]|Hr].
  - now rewrite row_line_record.
  - rewrite Hr. now right.
Qed.

Lemma rows_outcome_ok_records (event_key pen : value) (items : list value) :
  rows_outcome event_key pen items = Ok tt ->
  exists records, items = map VDict records.
Proof.
  induction items as [|result rest IH]; intros H.
  - now exists [].
  - cbn [rows_outcome] in H.
    destruct (row_line_cases event_key pen result) as [[record ->]|Hr].
    + rewrite row_line_record in H. destruct (IH H) as [records ->].
      now exists (record :: records).
    + rewrite Hr in H. discriminate.
Qed.

Lemma str_chars_aux_cons (cur s : string) :
  exists c cs, str_chars_aux cur s = c :: cs.
Proof.
  revert cur. induction s as [|a s IH]; intros cur; cbn [str_chars_aux]; eauto.
  destruct (utf8_continuation a); eauto.
Qed.

(** The whole of lines 50-110 for truthy results: the events in order and
    the way the call ends. *)
Lemma convert_truthy_exact (e : env) (output_folder : string)
  (results event_key pen : value) :
  py_truthy results = true ->
  open_error e (output_path e output_folder event_key pen) = None ->
  convert e output_folder results event_key pen
  = (EMkdir output_folder
       :: EOpenWrite (output_textfile (output_path e output_folder event_key pen))
       :: EWrite (output_textfile (output_path e output_folder event_key pen)) banner
       :: EWrite (output_textfile (output_path e output_folder event_key pen)) (str1 LF)
       :: EWrite (output_textfile (output_path e output_folder event_key pen)) header_text
       :: (map (EWrite (output_textfile (output_path e output_folder event_key pen)))
               (rows_written event_key pen (loop_items results))
           ++ EClose (output_textfile (output_path e output_folder event_key pen))
           :: match loop_outcome event_key pen results, py_len results with
              | Ok _, Ok n =>
                  [ EPrintConverted (output_path e output_folder event_key pen);
                    EPrint ("  - " ++ str_of_nat n ++ " results processed") ]
              | Ok _, Raise _ =>
                  [ EPrintConverted (output_path e output_folder event_key pen) ]
              | Raise _, _ => []
              end)%list,
     match loop_outcome event_key pen results, py_len results with
     | Ok _, Ok _ => Ok (Some (output_path e output_folder event_key pen))
     | Ok _, Raise ex => Raise ex
     | Raise ex, _ => Raise ex
     end).
Proof.
  intros Ht Hopen. unfold convert. rewrite Ht. cbn [negb].
  fold (output_path e output_folder event_key pen).
  unfold with_open. cbn [output_textfile tf_path]. rewrite Hopen.
  fold (output_textfile (output_path e output_folder event_key pen)).
  rewrite write_csv_log. fold (loop_outcome event_key pen results).
  destruct (loop_outcome event_key pen results) as [[]|ex].
  - destruct (py_len results) as [n|ex]; cbn; rewrite <- app_assoc; reflexivity.
  - cbn. reflexivity.
Qed.

Lemma loop_outcome_len (event_key pen results : value) :
  loop_outcome event_key pen results = Ok tt ->
  exists n, py_len results = Ok n.
Proof.
  unfold loop_outcome. destruct results; cbn; try discriminate; eauto.
Qed.

Lemma loop_outcome_kinds (event_key pen results : value) :
  loop_outcome event_key pen results = Ok tt
  \/ loop_outcome event_key pen results = Raise TypeError
  \/ loop_outcome event_key pen results = Raise AttributeError.
Proof.
  unfold loop_outcome.
  destruct (py_iter results) as [items|ex] eqn:Hit.
  - destruct (rows_outcome_kinds event_key pen items) as [H|H]; auto.
  - destruct results; cbn in Hit; try discriminate; injection Hit as <-; auto.
Qed.











(** X4. The "no results" exit of line 50 is taken for every falsy record
    list, not only for the empty list: null, false, 0, 0.0, -0.0, the
    empty string and the empty object end the call the same way, with the
    notice, no folder and no file. *)
Theorem X4_every_falsy_value_is_no_results
  (e : env) (json_file_path output_folder : string)
  (data results event_key pen : value) :
  fs_lookup (fs e) json_file_path = Some (JsonFile data) ->
  extract_results data = Ok (results, event_key, pen) ->
  In results [ VNone; VBool false; VInt 0; VFloat "0.0"; VFloat "-0.0";
               VStr ""; VList []; VDict [] ] ->
  json_to_csv e json_file_path output_folder
  = ([ EOpenRead json_file_path; EJsonLoad json_file_path;
       EPrint "No results found in JSON data" ], Ok None).
Proof.
  intros Hfs Hex Hin.
  rewrite (json_to_csv_loaded _ _ _ _ _ _ _ Hfs Hex).
  rewrite convert_falsy; [reflexivity|].
  simpl in Hin.
  repeat (destruct Hin as [<-|Hin]; [reflexivity|]). contradiction.
Qed.

Lemma X4_every_falsy_value_is_no_results_witness :
  json_to_csv (sample_env (VDict [("results", VNone)])) "in.json" "out"
  = ([ EOpenRead "in.json"; EJsonLoad "in.json";
       EPrint "No results found in JSON data" ], Ok None).
Proof.
  apply (X4_every_falsy_value_is_no_results
           (sample_env (VDict [("results", VNone)])) "in.json" "out"
           (VDict [("results", VNone)]) VNone (VStr "88000") (VStr "1")
           eq_refl eq_refl).
  simpl. tauto.
Defined.



(** ** Every run has one of eight shapes *)

Lemma extract_results_kinds (data : value) (ex : exn) :
  extract_results data = Raise ex -> ex = TypeError \/ ex = AttributeError.
Proof.
  destruct data as [| | | |s|items|d]; unfold extract_results;
    cbn [py_contains obind isinstance_list].
  1-4: intros H; injection H as <-; now left.
  - destruct (str_contains "results" s); cbn; intros H; injection H as <-; auto.
  - destruct (existsb (py_eq_str "results") items); cbn; intros H;
      [injection H as <-; now left|discriminate].
  - unfold dict_has, py_getitem.
    destruct (dict_lookup d "results"); rewrite !get2_resolve; discriminate.
Qed.

Lemma loop_ok_records (event_key pen results : value) :
  py_truthy results = true ->
  loop_outcome event_key pen results = Ok tt ->
  exists records, records <> [] /\ results = VList (map VDict records).
Proof.
  intros Ht Hloop. unfold loop_outcome in Hloop.
  destruct results as [| | | |s|items|entries]; cbn [py_iter] in Hloop;
    try discriminate.
  - destruct s as [|c s]; [discriminate Ht|].
    cbn [str_chars] in Hloop.
    destruct (str_chars_aux_cons (str1 c) s) as [c1 [cs Hcs]].
    rewrite Hcs in Hloop. discriminate Hloop.
  - destruct (rows_outcome_ok_records _ _ _ Hloop) as [records ->].
    exists records. split; [|reflexivity].
    intros ->. discriminate Ht.
  - destruct entries as [|[k v] entries]; [discriminate Ht|].
    discriminate Hloop.
Qed.

Lemma json_to_csv_shape (e : env) (json_file_path output_folder : string) :
  run_shape e json_file_path output_folder
    (json_to_csv e json_file_path output_folder).
Proof.
  destruct (fs_lookup (fs e) json_file_path) as [[data| | |]|] eqn:Hfs.
  - destruct (extract_results data) as [[[results event_key] pen]|ex] eqn:Hex.
    + destruct (py_truthy results) eqn:Ht.
      * destruct (open_error e (output_path e output_folder event_key pen))
          as [ex|] eqn:Hopen.
        { rewrite (json_to_csv_refused _ _ _ _ _ _ _ _ Hfs Hex Ht Hopen).
          apply RunRefused. exact (open_error_kinds _ _ _ Hopen). }
        rewrite (json_to_csv_loaded _ _ _ _ _ _ _ Hfs Hex).
        rewrite (convert_truthy_exact _ _ _ _ _ Ht Hopen). cbn [fst snd app].
        destruct (loop_outcome_kinds event_key pen results) as [Hl|[Hl|Hl]].
        -- destruct (loop_ok_records _ _ _ Ht Hl) as [records [Hne ->]].
           rewrite Hl. unfold loop_items. cbn [py_iter py_len].
           rewrite rows_written_records, length_map.
           assert (Hlen : List.length records
                          = List.length
                              (map (fun record =>
                                      csv_line
                                        (map snd (spec_row event_key pen record)))
                                   records))
             by (symmetry; apply length_map).
           rewrite Hlen.
           apply (RunDone e json_file_path output_folder event_key pen).
           destruct records; [contradiction|discriminate].
        -- rewrite Hl.
           apply (RunBroken e json_file_path output_folder event_key pen). auto.
        -- rewrite Hl.
           apply (RunBroken e json_file_path output_folder event_key pen). auto.
      * rewrite (json_to_csv_loaded _ _ _ _ _ _ _ Hfs Hex).
        rewrite (convert_falsy _ _ _ _ _ Ht). apply RunNoResults.
    + rewrite (json_to_csv_extract_raises _ _ _ _ _ Hfs Hex).
      apply RunBadRoot. exact (extract_results_kinds _ _ Hex).
  - unfold json_to_csv, read_json. rewrite Hfs. apply RunTooDeep.
  - unfold json_to_csv, read_json. rewrite Hfs. apply RunNotJson.
  - unfold json_to_csv, read_json. rewrite Hfs. apply RunUnreadable.
  - unfold json_to_csv, read_json. rewrite Hfs. apply RunUnreadable.
Qed.

Lemma is_print_writes (f : textfile) (texts : list string) (rest : list event) :
  existsb is_print (map (EWrite f) texts ++ rest) = existsb is_print rest.
Proof. induction texts as [|t texts IH]; simpl; auto. Qed.

Lemma scan_files_writes (f : textfile) (texts : list string) (rest : list event) :
  scan_files (Some f) (map (EWrite f) texts ++ rest)
  = scan_files (Some f) rest.
Proof.
  induction texts as [|t texts IH]; [reflexivity|].
  simpl. now rewrite path_eqb_refl.
Qed.

Lemma created_files_writes_then (f : textfile) (texts : list string)
  (rest : list event) :
  created_files (map (EWrite f) texts ++ rest) = created_files rest.
Proof. induction texts as [|t texts IH]; simpl; auto. Qed.

(** X6. A call of json_to_csv that raises has printed nothing, whatever
    made it raise: the load, the shape of the document or of a result, or
    the open of the output file.  What it raises is never KeyError (the
    subscript of line 36 runs only after the membership test of line 35)
    and never a request to exit. *)
Theorem X6_failures_are_silent
  (e : env) (json_file_path output_folder : string) (ex : exn) :
  snd (json_to_csv e json_file_path output_folder) = Raise ex ->
  existsb is_print (fst (json_to_csv e json_file_path output_folder)) = false
  /\ ex <> KeyError
  /\ (forall code, ex <> SystemExit code).
Proof.
  pose proof (json_to_csv_shape e json_file_path output_folder) as Hs.
  remember (json_to_csv e json_file_path output_folder) as run eqn:Hrun.
  destruct Hs as [ | | |ex' Hk| |ex' Hk|event_key pen rows ex' Hk
                 |event_key pen rows Hne];
    cbn [fst snd]; intros H; try discriminate H; injection H as <-.
  - repeat split; intros; discriminate.
  - repeat split; intros; discriminate.
  - repeat split; intros; discriminate.
  - destruct Hk as [->| ->]; repeat split; intros; discriminate.
  - destruct Hk as [->| ->]; repeat split; intros; discriminate.
  - split.
    + cbn [existsb is_print orb]. now rewrite is_print_writes.
    + destruct Hk as [->| ->]; split; intros; discriminate.
Qed.

Lemma X6_failures_are_silent_witness :
  existsb is_print
    (fst (json_to_csv
            (sample_env (VList [VDict [("name", VStr "X")]; VInt 4]))
            "in.json" "out")) = false.
Proof.
  apply (X6_failures_are_silent
           (sample_env (VList [VDict [("name", VStr "X")]; VInt 4]))
           "in.json" "out" AttributeError).
  reflexivity.
Defined.

(** X7. Whatever the input, a run creates at most one file, writes only to
    that file and only while it is open, and closes it before the call
    ends, also when a result raises in the middle of the loop; the same
    holds for a whole run of main. *)
Theorem X7_the_output_file_is_always_closed
  (e : env) (json_file_path output_folder : string) (argv : list string) :
  files_closed (fst (json_to_csv e json_file_path output_folder)) = true
  /\ List.length (created_files (fst (json_to_csv e json_file_path output_folder)))
     <= 1
  /\ files_closed (fst (main e argv)) = true
  /\ List.length (created_files (fst (main e argv))) <= 1.
Proof.
  assert (Hrun : forall jf folder,
             files_closed (fst (json_to_csv e jf folder)) = true
             /\ List.length (created_files (fst (json_to_csv e jf folder))) <= 1).
  { intros jf folder.
    pose proof (json_to_csv_shape e jf folder) as Hs.
    remember (json_to_csv e jf folder) as run eqn:Hrun.
    destruct Hs; cbn [fst]; unfold files_closed;
      cbn [scan_files created_files List.length];
      rewrite ?scan_files_writes, ?created_files_writes_then;
      cbn [scan_files created_files List.length tf_path output_textfile];
      rewrite ?path_eqb_refl; cbn [scan_files]; split; auto. }
  split; [apply Hrun|]. split; [apply Hrun|].
  unfold main.
  destruct (Nat.ltb (List.length argv) 3); [split; [reflexivity|simpl; lia]|].
  unfold path_exists.
  destruct (fs_lookup (fs e) (nth 1 argv "")); [|split; [reflexivity|simpl; lia]].
  destruct (Hrun (nth 1 argv "") (nth 2 argv "")) as [Hc Hn].
  cbn. destruct (json_to_csv e (nth 1 argv "") (nth 2 argv "")) as [log [v|ex]];
    cbn in *; rewrite ?app_nil_r; auto.
Qed.

(** ** The command line, beyond its argument checks *)

Lemma json_to_csv_exn_kinds (e : env) (json_file_path output_folder : string)
  (log : list event) (ex : exn) :
  json_to_csv e json_file_path output_folder = (log, Raise ex) ->
  exit_status (Raise ex) = 1%Z.
Proof.
  pose proof (json_to_csv_shape e json_file_path output_folder) as Hs.
  intros Hrun. rewrite Hrun in Hs.
  inversion Hs; subst; try reflexivity;
    match goal with H : _ \/ _ |- _ => destruct H as [->| ->]; reflexivity end.
Qed.

(** X8. main ends with status 0 or 1 and nothing else.  It ends with 0
    exactly when it was given at least two arguments and json_to_csv on
    the first two returned, with or without a path; the program name and
    any further argument play no part.  When the input path exists, the
    events of main are the existence test followed by those of
    json_to_csv. *)
Theorem X8_main_exit_status (e : env) (argv : list string) :
  (exit_status (snd (main e argv)) = 0%Z \/ exit_status (snd (main e argv)) = 1%Z)
  /\ (exit_status (snd (main e argv)) = 0%Z
      <-> 3 <= List.length argv
          /\ exists v, snd (json_to_csv e (nth 1 argv "") (nth 2 argv "")) = Ok v)
  /\ (3 <= List.length argv ->
      fs_lookup (fs e) (nth 1 argv "") <> None ->
      fst (main e argv)
      = EExists (nth 1 argv "")
          :: fst (json_to_csv e (nth 1 argv "") (nth 2 argv ""))).
Proof.
  unfold main.
  destruct (Nat.ltb (List.length argv) 3) eqn:Hlen.
  - apply Nat.ltb_lt in Hlen. cbn.
    split; [now right|]. split; [|lia].
    split; [discriminate|]. intros [H _]. lia.
  - apply Nat.ltb_ge in Hlen. unfold path_exists.
    destruct (fs_lookup (fs e) (nth 1 argv "")) as [f|] eqn:Hfs.
    + cbn.
      destruct (json_to_csv e (nth 1 argv "") (nth 2 argv "")) as [log [v|ex]]
        eqn:Hrun; cbn -[exit_status].
      * rewrite app_nil_r. cbn [exit_status]. split; [now left|]. split; [|reflexivity].
        split; [intros _; split; [lia|eauto]|reflexivity].
      * pose proof (json_to_csv_exn_kinds _ _ _ _ _ Hrun) as Hone.
        rewrite Hone. split; [now right|]. split; [|reflexivity].
        split; [discriminate|]. intros [_ [v Hv]]. discriminate Hv.
    + cbn. split; [now right|]. split; [|intros _ H; now contradiction H].
      split; [discriminate|]. intros [_ [v Hv]].
      unfold json_to_csv, read_json in Hv. rewrite Hfs in Hv. discriminate Hv.
Qed.

Lemma X8_main_exit_status_witness :
  exit_status
    (snd (main (sample_env sample_list)
            ["json_to_csv.py"; "in.json"; "out"; "ignored"])) = 0%Z.
Proof.
  apply (proj2 (proj1 (proj2 (X8_main_exit_status (sample_env sample_list)
                         ["json_to_csv.py"; "in.json"; "out"; "ignored"])))).
  split; [simpl; lia|]. eexists. reflexivity.
Defined.

(** ** What a row depends on *)

Lemma resolve_ext (r1 r2 : dict) (keys : list string) (default : value) :
  (forall k, In k keys -> dict_lookup r1 k = dict_lookup r2 k) ->
  resolve r1 keys default = resolve r2 keys default.
Proof.
  induction keys as [|k keys IH]; intros H; [reflexivity|].
  cbn [resolve]. rewrite (H k) by now left.
  rewrite IH; [reflexivity|]. intros k' Hk'. apply H. now right.
Qed.

Lemma existsb_eqb_false (k : string) (keys : list string) (k' : string) :
  existsb (String.eqb k) keys = false -> In k' keys ->
  String.eqb k' k = false.
Proof.
  intros Hno Hin. apply String.eqb_neq. intros ->.
  assert (existsb (String.eqb k) keys = true)
    by (apply existsb_exists; exists k; split; [assumption|apply String.eqb_refl]).
  congruence.
Qed.

(** X9. The row of a result depends only on what the result holds under the
    43 keys of lines 83-103: two results that agree on those keys give the
    same row and the same line, so a key outside them is ignored wherever it
    stands and never reaches the file. *)
Theorem X9_keys_outside_the_table_are_ignored
  (event_key pen : value) (r1 r2 : dict) :
  (forall k, In k candidate_keys -> dict_lookup r1 k = dict_lookup r2 k) ->
  make_row event_key pen (VDict r1) = make_row event_key pen (VDict r2)
  /\ row_line event_key pen (VDict r1) = row_line event_key pen (VDict r2)
  /\ List.length candidate_keys = 43.
Proof.
  intros H.
  assert (Hrow : spec_row event_key pen r1 = spec_row event_key pen r2).
  { unfold spec_row. apply map_ext_in. intros entry Hin.
    cbv [alias_table] in Hin. simpl In in Hin.
    repeat (destruct Hin as [<-|Hin];
            [f_equal; apply resolve_ext; intros k Hk; apply H;
             cbv [candidate_keys alias_table flat_map app];
             simpl In in *; tauto|]).
    contradiction. }
  split; [|split; [|reflexivity]].
  - now rewrite !make_row_record, Hrow.
  - now rewrite !row_line_record, Hrow.
Qed.

Lemma X9_keys_outside_the_table_are_ignored_witness :
  make_row (VStr "88000") (VStr "1")
    (VDict [("club", VStr "Wheelers"); ("name", VStr "X")])
  = make_row (VStr "88000") (VStr "1") (VDict [("name", VStr "X")]).
Proof.
  apply (X9_keys_outside_the_table_are_ignored (VStr "88000") (VStr "1")
           [("club", VStr "Wheelers"); ("name", VStr "X")]
           [("name", VStr "X")]).
  intros k Hk. cbv [candidate_keys alias_table flat_map app] in Hk.
  simpl In in Hk.
  repeat (destruct Hk as [<-|Hk]; [reflexivity|]). contradiction.
Defined.

(** ** The two spellings of the event key *)



(** ** The platform's line separator *)

Lemma convert_with_linesep (e : env) (sep output_folder : string)
  (results event_key pen : value) :
  convert (with_linesep e sep) output_folder results event_key pen
  = convert e output_folder results event_key pen.
Proof.
  unfold convert. destruct (py_truthy results); [|reflexivity]. cbn [negb].
  change (now (with_linesep e sep)) with (now e).
  unfold with_open. cbn [output_textfile tf_path].
  change (open_error (with_linesep e sep)) with (open_error e).
  destruct (open_error e
              (PathJoin output_folder
                 (output_name event_key pen (strftime_Ymd_HMS (now e)))));
    [reflexivity|].
  fold (output_textfile
          (PathJoin output_folder
             (output_name event_key pen (strftime_Ymd_HMS (now e))))).
  now rewrite !write_csv_log.
Qed.

(** X11. The file is opened with newline='' : nothing json_to_csv or main
    does depends on the platform's line separator, neither the bytes
    written nor the outcome. *)
Theorem X11_line_separator_is_ignored
  (e : env) (sep json_file_path output_folder : string) (argv : list string) :
  json_to_csv (with_linesep e sep) json_file_path output_folder
  = json_to_csv e json_file_path output_folder
  /\ main (with_linesep e sep) argv = main e argv.
Proof.
  assert (Hrun : forall jf folder,
             json_to_csv (with_linesep e sep) jf folder = json_to_csv e jf folder).
  { intros jf folder. unfold json_to_csv, read_json.
    change (fs (with_linesep e sep)) with (fs e).
    destruct (fs_lookup (fs e) jf) as [[data| | |]|];
      [|reflexivity|reflexivity|reflexivity|reflexivity].
    cbn -[convert]. destruct (extract_results data) as [[[results event_key] pen]|ex];
      [|reflexivity].
    cbn -[convert]. now rewrite convert_with_linesep. }
  split; [apply Hrun|].
  unfold main, path_exists. change (fs (with_linesep e sep)) with (fs e).
  now rewrite Hrun.
Qed.

(** ** File names over time *)

Lemma append_inv_head (s t u : string) : s ++ t = s ++ u -> t = u.
Proof.
  induction s as [|c s IH]; simpl; intros H; [assumption|].
  injection H as H. now apply IH.
Qed.

Lemma append_same_length (s1 s2 t1 t2 : string) :
  String.length s1 = String.length s2 ->
  s1 ++ t1 = s2 ++ t2 -> s1 = s2 /\ t1 = t2.
Proof.
  revert s2. induction s1 as [|c s1 IH]; intros [|c2 s2] Hlen H;
    simpl in *; try discriminate.
  - now split.
  - injection H as -> H. injection Hlen as Hlen.
    destruct (IH s2 Hlen H) as [-> ->]. now split.
Qed.

Lemma digits_exactly_length (n : nat) (s : string) :
  digits_exactly n s = true -> String.length s = n.
Proof.
  unfold digits_exactly. intros H. apply andb_true_iff in H as [H _].
  now apply Nat.eqb_eq.
Qed.

Lemma read_zero_pad_two (z : Z) :
  (0 <= z <= 99)%Z -> read_number (zero_pad 2 z) = Some z.
Proof.
  intros Hz.
  assert (H : match read_number (zero_pad 2 z) with
              | Some z' => Z.eqb z' z
              | None => false
              end = true).
  { apply (range_forallb_spec
             (fun n => match read_number (zero_pad 2 n) with
                       | Some n' => Z.eqb n' n
                       | None => false
                       end) 100 0%Z); [vm_compute; reflexivity|lia]. }
  destruct (read_number (zero_pad 2 z)) as [z'|]; [|discriminate].
  apply Z.eqb_eq in H. now subst.
Qed.

Lemma read_zero_pad_four (z : Z) :
  (1000 <= z <= 9999)%Z -> read_number (zero_pad 4 z) = Some z.
Proof.
  intros Hz.
  assert (H : match read_number (zero_pad 4 z) with
              | Some z' => Z.eqb z' z
              | None => false
              end = true).
  { apply (range_forallb_spec
             (fun n => match read_number (zero_pad 4 n) with
                       | Some n' => Z.eqb n' n
                       | None => false
                       end) (Z.to_nat 9000) 1000%Z); [vm_compute; reflexivity|lia]. }
  destruct (read_number (zero_pad 4 z)) as [z'|]; [|discriminate].
  apply Z.eqb_eq in H. now subst.
Qed.

Lemma zero_pad_two_inj (a b : Z) :
  (0 <= a <= 99)%Z -> (0 <= b <= 99)%Z ->
  zero_pad 2 a = zero_pad 2 b -> a = b.
Proof.
  intros Ha Hb H. apply (f_equal read_number) in H.
  rewrite !read_zero_pad_two in H by assumption. now injection H.
Qed.

Lemma strftime_inj (t1 t2 : datetime) :
  datetime_ok t1 = true -> datetime_ok t2 = true ->
  strftime_Ymd_HMS t1 = strftime_Ymd_HMS t2 -> t1 = t2.
Proof.
  unfold datetime_ok. intros H1 H2 H.
  repeat (apply andb_true_iff in H1 as [H1 ?]).
  repeat (apply andb_true_iff in H2 as [H2 ?]).
  unfold strftime_Ymd_HMS in H.
  assert (L2 : forall z, (0 <= z <= 99)%Z -> String.length (zero_pad 2 z) = 2)
    by (intros z Hz; apply digits_exactly_length, zero_pad_two_digits, Hz).
  assert (L4 : forall z, (1000 <= z <= 9999)%Z -> String.length (zero_pad 4 z) = 4)
    by (intros z Hz; apply digits_exactly_length, zero_pad_four_digits, Hz).
  apply append_same_length in H as [Hy H];
    [|rewrite !L4 by lia; reflexivity].
  apply append_same_length in H as [Hm H];
    [|rewrite !L2 by lia; reflexivity].
  apply append_same_length in H as [Hd H];
    [|rewrite !L2 by lia; reflexivity].
  apply (append_inv_head "_") in H.
  apply append_same_length in H as [Hh H];
    [|rewrite !L2 by lia; reflexivity].
  apply append_same_length in H as [Hmi Hs];
    [|rewrite !L2 by lia; reflexivity].
  apply (f_equal read_number) in Hy.
  rewrite !read_zero_pad_four in Hy by lia. injection Hy as Hy.
  apply zero_pad_two_inj in Hm, Hd, Hh, Hmi, Hs; try lia.
  destruct t1, t2; simpl in *; now subst.
Qed.

(** X12. The file name tells the runs of different seconds apart: for the
    same folder, event key and pen, two clock readings give the same
    output path only when they are the same reading, to the second. *)
Theorem X12_different_seconds_different_files
  (e1 e2 : env) (output_folder : string) (event_key pen : value) :
  datetime_ok (now e1) = true ->
  datetime_ok (now e2) = true ->
  output_path e1 output_folder event_key pen
  = output_path e2 output_folder event_key pen ->
  now e1 = now e2.
Proof.
  intros H1 H2 H. unfold output_path, output_name in H.
  injection H as H.
  apply append_inv_head in H. injection H as H.
  apply append_inv_head in H. injection H as H.
  apply append_same_length in H as [H _].
  - now apply strftime_inj.
  - pose proof (strftime_shape _ H1) as S1.
    pose proof (strftime_shape _ H2) as S2.
    unfold timestamp_shape in S1, S2.
    repeat (apply andb_true_iff in S1 as [S1 _]).
    repeat (apply andb_true_iff in S2 as [S2 _]).
    apply Nat.eqb_eq in S1, S2. congruence.
Qed.

Lemma X12_different_seconds_different_files_witness :
  datetime_ok sample_clock = true
  /\ now (sample_env sample_list) = now (sample_env sample_document).
Proof.
  split; [reflexivity|].
  apply (X12_different_seconds_different_files
           (sample_env sample_list) (sample_env sample_document)
           "out" (VInt 88022) (VInt 3)); reflexivity.
Defined.

(** Mode ['a'] would keep what the file held: the observer tells the two
    modes apart. *)
Example append_mode_keeps_content :
  let p := PathJoin "out" "r.csv" in
  let w := {| tf_path := p; tf_mode := ModeW;
              tf_newline := None; tf_encoding := Utf8 |} in
  let a := {| tf_path := p; tf_mode := ModeA;
              tf_newline := None; tf_encoding := Utf8 |} in
  file_content [EOpenWrite w; EWrite w "old"; EClose w;
                EOpenWrite a; EWrite a "new"; EClose a] p = Some "oldnew"
  /\ file_content [EOpenWrite w; EWrite w "old"; EClose w;
                   EOpenWrite w; EWrite w "new"; EClose w] p = Some "new".
Proof. split; reflexivity. Qed.



(** ** Roots that are neither objects nor lists *)

(** X14. A root object is always dispatched, whatever its keys.  A root
    that is neither an object nor a list stops json_to_csv right after the
    load, before anything is printed or created: with TypeError for null,
    a boolean or a number and for a string that contains the text
    results, with AttributeError for any other string. *)
Theorem X14_roots_that_are_no_documents
  (e : env) (json_file_path output_folder : string) (data : value) :
  (forall d : dict,
      exists results event_key pen,
        extract_results (VDict d) = Ok (results, event_key, pen))
  /\ (fs_lookup (fs e) json_file_path = Some (JsonFile data) ->
      is_record data = false ->
      isinstance_list data = false ->
      json_to_csv e json_file_path output_folder
      = ([EOpenRead json_file_path; EJsonLoad json_file_path],
         Raise match data with
               | VStr s => if str_contains "results" s then TypeError
                           else AttributeError
               | _ => TypeError
               end)).
Proof.
  split.
  - intros d. destruct (dict_lookup d "results") as [results|] eqn:Hr.
    + rewrite (extract_results_with_key _ _ Hr). eauto.
    + rewrite extract_results_single_object; [eauto|].
      unfold dict_has. now rewrite Hr.
  - intros Hfs Hrec Hlist.
    apply (json_to_csv_extract_raises _ _ _ _ _ Hfs).
    destruct data as [| | | |s|items|d]; try reflexivity; try discriminate.
    unfold extract_results. cbn [py_contains obind].
    destruct (str_contains "results" s); reflexivity.
Qed.

Lemma X14_roots_that_are_no_documents_witness :
  json_to_csv (sample_env (VStr "my results")) "in.json" "out"
  = ([EOpenRead "in.json"; EJsonLoad "in.json"], Raise TypeError).
Proof.
  apply (proj2 (X14_roots_that_are_no_documents
                  (sample_env (VStr "my results")) "in.json" "out"
                  (VStr "my results")) eq_refl eq_refl eq_refl).
Defined.

(** ** Well-formed lines *)






(** ** A bare list has no header values *)



(** ** A refused open *)



